(** * tmgp model-trainer: a shallow embedding of the two fine-tuning scripts

    [trainer.py] and [empathetic_summaries.py] are flat scripts around an
    external training framework.  What the scripts themselves compute is
    embedded here: the feature-conversion closure, the percentage split
    expressions, the order and the exception handling of the top-level
    statements, and the evaluation callback.  Everything the scripts call
    but do not define (tokenizer, model, plotting, persistence) is an
    explicit argument of the definitions below. *)

From stdpp Require Import gmap strings list fin_maps.
From Equations Require Import Equations.
From Stdlib Require Import ZArith Lia Ascii.

Local Open Scope Z_scope.
Local Open Scope nat_scope.

(** ** Python values and exceptions *)

(** Instances of Python's [Exception] class, the ones an [except Exception]
    clause catches.  [KeyError] is what a dictionary subscript raises on a
    missing key; [Exception] stands for whatever an external call raises. *)
Inductive exn : Type :=
| KeyError (key : string)
| Exception (msg : string).

(** How a call ends: with a value or with a raised exception. *)
Inductive outcome (A : Type) : Type :=
| Returns (a : A)
| Raises (e : exn).
Arguments Returns {A} a.
Arguments Raises {A} e.

#[global] Instance outcome_ret : MRet outcome := fun A a => Returns a.
#[global] Instance outcome_bind : MBind outcome := fun A B f m =>
  match m with
  | Returns a => f a
  | Raises e => Raises e
  end.

(** [d[k]] on a Python dict. *)
Definition getitem {V : Type} (d : gmap string V) (k : string) : outcome V :=
  match d !! k with
  | Some v => Returns v
  | None => Raises (KeyError k)
  end.

(** [ids[:-1]]: the stop index [len(ids) - 1] is clipped at 0, so the slice of
    an empty list is empty. *)
Definition slice_to_minus_one {A : Type} (ids : list A) : list A :=
  take (length ids - 1) ids.

(** ** Statements: state passing with exceptions *)

(** A statement run from a state ends with a value or a raised exception;
    what it did to the state before raising stays done. *)
Definition run (S A : Type) : Type := S -> outcome A * S.

#[global] Instance run_ret {S : Type} : MRet (run S) := fun A a s => (Returns a, s).
#[global] Instance run_bind {S : Type} : MBind (run S) := fun A B f m s =>
  match m s with
  | (Returns a, s') => f a s'
  | (Raises e, s') => (Raises e, s')
  end.

(** [try: body  except Exception as e: handler]. *)
Definition try_except {S A : Type} (body : run S A) (handler : exn -> run S A) : run S A :=
  fun s =>
    match body s with
    | (Returns a, s') => (Returns a, s')
    | (Raises e, s') => handler e s'
    end.

(** A value or exception computed without touching the state. *)
Definition lift {S A : Type} (o : outcome A) : run S A := fun s => (o, s).

(** What a script leaves behind: the external calls it made, by source line,
    and the records it logged.  An f-string is logged as its template, the
    exception it renders is kept beside it. *)
Inductive event : Type :=
| Call (line : nat) (what : string)
| LogInfo (msg : string)
| LogError (msg : string) (e : exn).

Abbreviation script := (run (list event)).

Definition logging_info (msg : string) : script unit :=
  fun s => (Returns tt, s ++ [LogInfo msg]).

Definition logging_error (msg : string) (e : exn) : script unit :=
  fun s => (Returns tt, s ++ [LogError msg e]).

(** An external call at a source line: it raises the exception the
    environment [failing] assigns to that line, and returns otherwise. *)
Definition call (failing : gmap nat exn) (line : nat) (what : string) : script unit :=
  fun s =>
    (match failing !! line with
     | None => Returns tt
     | Some e => Raises e
     end, s ++ [Call line what]).

(** ** The tokenizer interface *)

(** [with tokenizer.as_target_tokenizer()] switches the tokenizer to its
    target side for the calls made inside the block. *)
Inductive tokenizer_mode : Type := as_source_tokenizer | as_target_tokenizer.

(** The two fields of a [BatchEncoding] the scripts read: one sequence per
    text of the batch. *)
Record encoding : Type := {
  enc_input_ids : list (list Z);
  enc_attention_mask : list (list Z)
}.

(** [tokenizer(texts, max_length=n, truncation=True)] and
    [tokenizer.pad_token_id]. *)
Record tokenizer : Type := {
  tokenizer_call : tokenizer_mode -> list string -> nat -> encoding;
  pad_token_id : Z
}.

(** What [truncation=True] with [max_length=n] promises of the external
    tokenizer: no sequence longer than [n], and a mask entry per token. *)
Record truncating (T : tokenizer) : Prop := {
  truncating_bound : forall mode texts n ids,
    ids ∈ enc_input_ids (tokenizer_call T mode texts n) -> length ids <= n;
  truncating_mask : forall mode texts n,
    length <$> enc_attention_mask (tokenizer_call T mode texts n)
    = length <$> enc_input_ids (tokenizer_call T mode texts n)
}.

(** A [BatchEncoding] seen as the dict the scripts subscript and assign to. *)
Definition batch_encoding (e : encoding) : gmap string (list (list Z)) :=
  <["attention_mask" := enc_attention_mask e]>
    (<["input_ids" := enc_input_ids e]> ∅).

(** A concrete tokenizer to run the definitions on: one id per character
    (its code), an end-of-sequence id 1, truncation to the first [n] ids,
    padding id 0. *)
Definition char_ids (s : string) : list Z :=
  ((fun c => Z.of_nat (Ascii.nat_of_ascii c)) <$> String.list_ascii_of_string s) ++ [1%Z].

Definition char_tokenizer : tokenizer := {|
  tokenizer_call := fun _ texts n =>
    let ids := (fun s => take n (char_ids s)) <$> texts in
    {| enc_input_ids := ids;
       enc_attention_mask := (fun l => replicate (length l) 1%Z) <$> ids |};
  pad_token_id := 0%Z
|}.

(** ** Dataset Loader/Splitter *)

(** A split expression of the dataset slicing API, [name[from%:to%]]: the
    named source split and two bounds in percent, either of which may be
    left out. *)
Record split_expr : Type := {
  split_source : string;
  split_from : option nat;
  split_to : option nat
}.

Section Slicing.

(** The slicing API's rounding of a percent boundary to an absolute index
    of a split of [num_examples] rows.  It belongs to the dataset
    library, not to the scripts. *)
Variable pct_to_abs : nat -> nat -> nat.

(** The absolute bounds of a split expression, both clipped to the number
    of rows. *)
Definition split_bounds (e : split_expr) (num_examples : nat) : nat * nat :=
  let from_ := match split_from e with
               | None => 0
               | Some boundary => pct_to_abs boundary num_examples
               end in
  let to := match split_to e with
            | None => num_examples
            | Some boundary => pct_to_abs boundary num_examples
            end in
  (from_ `min` num_examples, to `min` num_examples).

(** The row positions a split expression selects: [range(from_, to)]. *)
Definition split_positions (e : split_expr) (num_examples : nat) : list nat :=
  let '(from_, to) := split_bounds e num_examples in
  seq from_ (to - from_).

(** The rows a split expression selects: [source[from_:to]]. *)
Definition read_split {A : Type} (source : list A) (e : split_expr) : list A :=
  let '(from_, to) := split_bounds e (length source) in
  take (to - from_) (drop from_ source).

End Slicing.

(** The library's default rounding, [int(round(boundary * num_examples / 100.0))],
    with Python's rounding of halves to the even neighbour; used to run the
    split expressions on concrete collections. *)
Definition pct_to_abs_closest (boundary num_examples : nat) : nat :=
  let q := boundary * num_examples / 100 in
  let r := (boundary * num_examples) mod 100 in
  if decide (r < 50) then q
  else if decide (50 < r) then S q
  else if Nat.even q then q else S q.

(** ** The external framework: model, metric, rendering *)

(** One entry of a ROUGE result: [score[rn].mid.fmeasure] reads two fields. *)
Record rouge_score (F : Type) : Type := {
  precision : F;
  recall : F;
  fmeasure : F
}.
Arguments precision {F} _.
Arguments recall {F} _.
Arguments fmeasure {F} _.

Record aggregate_score (F : Type) : Type := {
  low : rouge_score F;
  mid : rouge_score F;
  high : rouge_score F
}.
Arguments low {F} _.
Arguments mid {F} _.
Arguments high {F} _.

(** The operations of the training framework the evaluator and the callback
    go through, over abstract weights [W], metric accumulators [M] and
    floating-point numbers [F]: batch generation (tokenize, generate,
    decode), the metric's [add_batch] and [compute], and the rendering of
    values inside an f-string. *)
Record framework (W M F : Type) : Type := {
  generate : W -> list string -> outcome (list string);
  add_batch : M -> list string -> list string -> M;
  compute : M -> gmap string (aggregate_score F);
  str_epoch : F -> string;
  str_rouge_dict : list (string * F) -> string
}.
Arguments generate {W M F} _ _ _.
Arguments add_batch {W M F} _ _ _ _.
Arguments compute {W M F} _ _.
Arguments str_epoch {W M F} _ _.
Arguments str_rouge_dict {W M F} _ _.

(** ** Data model *)

Record example : Type := {
  source_text : string;
  summary : string
}.

(** The objects a training run holds and hands to its callbacks. *)
Inductive object : Type :=
| the_model
| the_optimizer
| the_lr_scheduler.

(** [TrainerControl]: the signals a callback may set to steer the loop. *)
Record trainer_control : Type := {
  should_training_stop : bool;
  should_epoch_stop : bool;
  should_save : bool;
  should_evaluate : bool;
  should_log : bool
}.

(** Everything a callback could reach during training: the model's weights,
    the optimizer, the trainer state's epoch, the control signals, the
    metric accumulator, the generation calls issued so far (each with the
    source texts of its batch) and the log. *)
Record world (W O M F : Type) : Type := {
  model_weights : W;
  optimizer_state : O;
  epoch : F;
  control : trainer_control;
  rouge_metric : M;
  generation_calls : list (list string);
  log : list event
}.
Arguments model_weights {W O M F} _.
Arguments optimizer_state {W O M F} _.
Arguments epoch {W O M F} _.
Arguments control {W O M F} _.
Arguments rouge_metric {W O M F} _.
Arguments generation_calls {W O M F} _.
Arguments log {W O M F} _.

(** ** Batched Metric Evaluator *)

(** Modelled from the spec: [utils.py] is not among the source files; the
    batching of [calculate_metric_on_test_ds] follows section 4.1,
    "partition the input sequence into contiguous batches of the given size
    (last batch may be smaller, processed as-is, no padding to a full
    batch)".  The batch size is a positive integer; nothing is said of
    size 0, which yields no batch here. *)
Equations? chunks {A : Type} (batch_size : nat) (xs : list A) : list (list A)
  by wf (length xs) lt :=
  chunks 0 xs := [];
  chunks (S b) [] := [];
  chunks (S b) (x :: xs) :=
    take (S b) (x :: xs) :: chunks (S b) (drop (S b) (x :: xs)).
Proof. simpl. rewrite length_drop. lia. Qed.

(** [ceil(n / b)] for a positive [b]. *)
Definition ceil_div (n b : nat) : nat := (n + (b - 1)) / b.

Section Evaluator.

Context {W O M F : Type}.
Variable fw : framework W M F.

(** A generation call on an object: only the model generates. *)
Definition model_generate (trainer : object) (texts : list string)
  : run (world W O M F) (list string) :=
  fun w =>
    let w' := {| model_weights := model_weights w;
                 optimizer_state := optimizer_state w;
                 epoch := epoch w;
                 control := control w;
                 rouge_metric := rouge_metric w;
                 generation_calls := generation_calls w ++ [texts];
                 log := log w |} in
    match trainer with
    | the_model => (generate fw (model_weights w) texts, w')
    | _ => (Raises (Exception "object has no attribute generate"), w')
    end.

(** [metric.add_batch(predictions=..., references=...)]. *)
Definition metric_add_batch (predictions references : list string)
  : run (world W O M F) unit :=
  fun w =>
    (Returns tt,
     {| model_weights := model_weights w;
        optimizer_state := optimizer_state w;
        epoch := epoch w;
        control := control w;
        rouge_metric := add_batch fw (rouge_metric w) predictions references;
        generation_calls := generation_calls w;
        log := log w |}).

(** Modelled from the spec: section 4.1, per batch "run generation ...
    decode ... feed (decoded generations, reference texts) into the
    accumulator"; an exception of the generation propagates. *)
Fixpoint evaluate_batches (trainer : object) (batches : list (list example))
  : run (world W O M F) unit :=
  match batches with
  | [] => mret tt
  | batch :: batches =>
      decoded ← model_generate trainer (source_text <$> batch);
      metric_add_batch decoded (summary <$> batch);;
      evaluate_batches trainer batches
  end.

(** [metric.compute()]: the finalized score of every tracked metric. *)
Definition metric_compute : run (world W O M F) (gmap string (aggregate_score F)) :=
  fun w => (Returns (compute fw (rouge_metric w)), w).

(** Modelled from the spec: [calculate_metric_on_test_ds] of the missing
    [utils.py], section 4.1: batch the split, evaluate every batch, and
    return the finalized scores; "side effects: none beyond accumulator
    mutation".  The two column names select the components of an
    [example] and have no other role. *)
Definition calculate_metric_on_test_ds (dataset : list example)
    (trainer : object) (batch_size : nat)
  : run (world W O M F) (gmap string (aggregate_score F)) :=
  evaluate_batches trainer (chunks batch_size dataset);;
  metric_compute.

Definition world_logging_info (msg : string) : run (world W O M F) unit :=
  fun w =>
    (Returns tt,
     {| model_weights := model_weights w;
        optimizer_state := optimizer_state w;
        epoch := epoch w;
        control := control w;
        rouge_metric := rouge_metric w;
        generation_calls := generation_calls w;
        log := log w ++ [LogInfo msg] |}).

(** [state.epoch]. *)
Definition state_epoch : run (world W O M F) F :=
  fun w => (Returns (epoch w), w).

End Evaluator.

(** ** Checkpoint Summary Generator *)

(** The generation parameter set of section 6; the length penalty is a
    float, kept as the literal the scripts write. *)
Record gen_kwargs : Type := {
  length_penalty : string;
  num_beams : nat;
  max_length : nat
}.

Section Checkpoints.

Context {P : Type}.
(** The checkpoint subdirectories of a root directory, loading a
    summarization pipeline from one, and running a pipeline on a text. *)
Variable listdir : string -> list string.
Variable load_pipeline : string -> outcome P.
Variable run_pipeline : P -> string -> gen_kwargs -> outcome string.

(** Load one checkpoint and summarize the sample with it. *)
Definition checkpoint_summary (checkpoint sample_text : string) (kw : gen_kwargs)
  : outcome string :=
  pipe ← load_pipeline checkpoint;
  run_pipeline pipe sample_text kw.

(** Modelled from the spec: [checkpoint_summarizer.py] is not among the
    source files; section 4.4, "a failure loading or running one
    checkpoint is caught, logged, and that checkpoint is skipped". *)
Fixpoint summarize_checkpoints (checkpoints : list string)
    (sample_text : string) (kw : gen_kwargs)
  : script (list (string * string)) :=
  match checkpoints with
  | [] => mret []
  | checkpoint :: checkpoints =>
      found ← try_except
                (text ← lift (checkpoint_summary checkpoint sample_text kw);
                 mret (Some text))
                (fun e => logging_error checkpoint e;; mret None);
      pairs ← summarize_checkpoints checkpoints sample_text kw;
      mret (match found with
            | Some text => (checkpoint, text) :: pairs
            | None => pairs
            end)
  end.

(** Modelled from the spec: section 4.4, the (checkpoint name, summary
    text) pairs of the checkpoint directories under the root, in order. *)
Definition generate_summaries_for_checkpoints (checkpoint_dir sample_text : string)
    (kw : gen_kwargs) : script (list (string * string)) :=
  summarize_checkpoints (listdir checkpoint_dir) sample_text kw.

End Checkpoints.

(** ** Feature Converter *)

(** The sequence built at [trainer.py:97] / [empathetic_summaries.py:107]:
    [[tokenizer.pad_token_id] + ids[:-1]]. *)
Definition shift_right (T : tokenizer) (ids : list Z) : list Z :=
  [pad_token_id T] ++ slice_to_minus_one ids.

(** [dict((rn, score[rn].mid.fmeasure) for rn in rouge_names)], in the order
    of the names. *)
Fixpoint rouge_dict_of {F : Type} (score : gmap string (aggregate_score F))
    (names : list string) : outcome (list (string * F)) :=
  match names with
  | [] => mret []
  | rn :: names =>
      s ← getitem score rn;
      rest ← rouge_dict_of score names;
      mret ((rn, fmeasure (mid s)) :: rest)
  end.

(** ** trainer.py *)

Module Trainer.

Definition rouge_names : list string := ["rouge1"; "rouge2"; "rougeL"; "rougeLsum"].

(** [trainer.py:93-97]: the target encodings after both assignments.  The
    [.copy()] is a new list and the comprehension builds new lists, so
    neither assignment changes what the other key holds. *)
Definition target_encodings (T : tokenizer) (summary : list string)
  : outcome (gmap string (list (list Z))) :=
  let target_encodings := batch_encoding (tokenizer_call T as_target_tokenizer summary 128) in
  ids ← getitem target_encodings "input_ids";
  let target_encodings := <["labels" := ids]> target_encodings in
  ids ← getitem target_encodings "input_ids";
  let target_encodings := <["input_ids" := map (shift_right T) ids]> target_encodings in
  mret target_encodings.

(** [trainer.py:90-103]. *)
Definition convert_examples_to_features (T : tokenizer)
    (example_batch : gmap string (list string))
  : outcome (gmap string (list (list Z))) :=
  dialogue ← getitem example_batch "dialogue";
  let input_encodings := batch_encoding (tokenizer_call T as_source_tokenizer dialogue 1024) in
  summary ← getitem example_batch "summary";
  target_encodings ← target_encodings T summary;
  input_ids ← getitem input_encodings "input_ids";
  attention_mask ← getitem input_encodings "attention_mask";
  labels ← getitem target_encodings "input_ids";
  mret (<["input_ids" := input_ids]>
         (<["attention_mask" := attention_mask]>
           (<["labels" := labels]> ∅))).

Section RougeCallback.

Context {W O M F : Type}.
Variable fw : framework W M F.

(** [trainer.py:117-123], [RougeCallback.on_evaluate].  [state] and
    [control] are the objects of the [world]; [args] is not used;
    [self.eval_dataset] is the first argument. *)
Definition on_evaluate (eval_dataset : list example) (kwargs : gmap string object)
  : run (world W O M F) unit :=
  trainer ← lift (getitem kwargs "model");
  score ← calculate_metric_on_test_ds fw eval_dataset trainer 8;
  rouge_dict ← lift (rouge_dict_of score rouge_names);
  epoch ← state_epoch;
  world_logging_info
    ("ROUGE scores after epoch " +:+ str_epoch fw epoch +:+ ": "
     +:+ str_rouge_dict fw rouge_dict).

End RougeCallback.

Section Script.

Variable failing : gmap nat exn.
Let call := call failing.

(** [trainer.py:33-70]. *)
Definition load_and_baseline : script unit :=
  call 33 "nltk.download";;
  call 36 "torch.cuda.is_available";;
  logging_info "Device set to {device}";;
  logging_info "Loading model and tokenizer from checkpoint {model_ckpt}";;
  call 42 "AutoTokenizer.from_pretrained";;
  call 43 "AutoModelForSeq2SeqLM.from_pretrained(model_ckpt).to";;
  logging_info "Model loaded: {model_pegasus}";;
  logging_info "Loading samsum dataset";;
  call 49 "load_dataset";;
  logging_info "Split lengths: {[len(dataset_samsum[split]) for split in dataset_samsum]}";;
  logging_info "Features: {dataset_samsum['train'].column_names}";;
  logging_info "\nDialogue:";;
  logging_info "{dataset_samsum['test'][1]['dialogue']}";;
  logging_info "\nSummary:";;
  logging_info "{dataset_samsum['test'][1]['summary']}";;
  call 58 "pipeline";;
  call 59 "pipe";;
  logging_info "{pipe_out}";;
  logging_info "{pipe_out[0]['summary_text'].replace(' .', '.\n')}";;
  call 64 "load_metric";;
  call 65 "calculate_metric_on_test_ds";;
  logging_info "{dataframe_rouge}".

(** [trainer.py:72-87]: the save of the figure is a bare statement. *)
Definition token_length_histograms : script unit :=
  call 73 "tokenizer.encode";;
  call 74 "tokenizer.encode";;
  call 76 "plt.subplots";;
  call 77 "axes[0].hist";;
  call 78 "axes[0].set_title";;
  call 79 "axes[0].set_xlabel";;
  call 80 "axes[0].set_ylabel";;
  call 81 "axes[1].hist";;
  call 82 "axes[1].set_title";;
  call 83 "axes[1].set_xlabel";;
  call 84 "plt.tight_layout";;
  call 85 "plt.show";;
  call 87 "plt.savefig".

(** [trainer.py:105-161]. *)
Definition prepare_and_train : script unit :=
  call 105 "dataset_samsum.map";;
  call 106 "DataCollatorForSeq2Seq";;
  logging_info "Setting up training arguments";;
  call 128 "TrainingArguments";;
  logging_info "Training arguments: {trainer_args}";;
  logging_info "Initializing trainer";;
  call 149 "Trainer";;
  logging_info "Starting training";;
  call 160 "trainer.train";;
  logging_info "Training complete".

(** [trainer.py:164-168]. *)
Definition save_model : script unit :=
  try_except
    (call 165 "trainer.model.save_pretrained";;
     logging_info "Model saved successfully.")
    (fun e => logging_error "Error saving model: {e}" e).

(** [trainer.py:177-181]. *)
Definition save_tokenizer : script unit :=
  try_except
    (call 178 "tokenizer.save_pretrained";;
     logging_info "Tokenizer saved successfully.")
    (fun e => logging_error "Error saving tokenizer: {e}" e).

(** [trainer.py:188-198]. *)
Definition summarize_with_finetuned : script unit :=
  try_except
    (call 189 "pipeline";;
     call 190 "pipe";;
     logging_info "Dialogue:";;
     logging_info "{sample_text}";;
     logging_info "\nReference Summary:";;
     logging_info "{reference}";;
     logging_info "\nModel Summary:";;
     logging_info "{model_summary}")
    (fun e => logging_error "Error during summarization: {e}" e).

(** [trainer.py:201-211]. *)
Definition checkpoint_summaries : script unit :=
  call 201 "import checkpoint_summarizer";;
  call 211 "generate_summaries_for_checkpoints".

(** The statements of [trainer.py] from the save of the model to the
    end of the script. *)
Definition after_training : script unit :=
  save_model;;
  save_tokenizer;;
  summarize_with_finetuned;;
  checkpoint_summaries.

(** The whole of [trainer.py]. *)
Definition main : script unit :=
  load_and_baseline;;
  token_length_histograms;;
  prepare_and_train;;
  after_training.

End Script.

End Trainer.

(** ** empathetic_summaries.py *)

Module Empathetic.

Definition rouge_names : list string := ["rouge1"; "rouge2"; "rougeL"; "rougeLsum"].

(** [empathetic_summaries.py:47-51]: ['train[:80%]'], ['train[80%:90%]'],
    ['train[90%:]']. *)
Definition train_valid_test_split : gmap string split_expr :=
  <["train" := {| split_source := "train"; split_from := None; split_to := Some 80 |}]>
  (<["validation" := {| split_source := "train"; split_from := Some 80; split_to := Some 90 |}]>
  (<["test" := {| split_source := "train"; split_from := Some 90; split_to := None |}]> ∅)).

(** [empathetic_summaries.py:52]: one named split of the loaded dataset,
    read off the source collection ['train'] of the hub. *)
Definition load_dataset {A : Type} (pct_to_abs : nat -> nat -> nat)
    (hub : gmap string (list A)) (name : string) : outcome (list A) :=
  e ← getitem train_valid_test_split name;
  source ← getitem hub (split_source e);
  mret (read_split pct_to_abs source e).

(** [empathetic_summaries.py:103-107]: the target encodings after both
    assignments. *)
Definition target_encodings (T : tokenizer) (summary : list string)
  : outcome (gmap string (list (list Z))) :=
  let target_encodings := batch_encoding (tokenizer_call T as_target_tokenizer summary 128) in
  ids ← getitem target_encodings "input_ids";
  let target_encodings := <["labels" := ids]> target_encodings in
  ids ← getitem target_encodings "input_ids";
  let target_encodings := <["input_ids" := map (shift_right T) ids]> target_encodings in
  mret target_encodings.

(** [empathetic_summaries.py:100-113]. *)
Definition convert_examples_to_features (T : tokenizer)
    (example_batch : gmap string (list string))
  : outcome (gmap string (list (list Z))) :=
  utterance ← getitem example_batch "utterance";
  let input_encodings := batch_encoding (tokenizer_call T as_source_tokenizer utterance 1024) in
  summary ← getitem example_batch "summary";
  target_encodings ← target_encodings T summary;
  input_ids ← getitem input_encodings "input_ids";
  attention_mask ← getitem input_encodings "attention_mask";
  labels ← getitem target_encodings "input_ids";
  mret (<["input_ids" := input_ids]>
         (<["attention_mask" := attention_mask]>
           (<["labels" := labels]> ∅))).

Section Script.

Variable failing : gmap nat exn.
Let call := call failing.

(** [empathetic_summaries.py:29-76]. *)
Definition load_and_baseline : script unit :=
  call 29 "nltk.download";;
  call 32 "torch.cuda.is_available";;
  logging_info "Device set to {device}";;
  logging_info "Loading model and tokenizer from checkpoint {model_ckpt}";;
  call 38 "AutoTokenizer.from_pretrained";;
  call 39 "AutoModelForSeq2SeqLM.from_pretrained(model_ckpt).to";;
  logging_info "Model loaded: {model_pegasus}";;
  logging_info "Loading empathetic_dialogues_summary dataset";;
  call 44 "load_dataset";;
  call 52 "load_dataset";;
  logging_info "Split lengths: {[len(dataset_empathic[split]) for split in dataset_empathic]}";;
  logging_info "Features: {dataset_empathic['train'].column_names}";;
  logging_info "\nUtterance:";;
  logging_info "{dataset_empathic['test'][1]['utterance']}";;
  logging_info "\nSummary:";;
  logging_info "{dataset_empathic['test'][1]['summary']}";;
  call 64 "pipeline";;
  call 65 "pipe";;
  logging_info "{pipe_out}";;
  logging_info "{pipe_out[0]['summary_text'].replace(' .', '.\n')}";;
  call 70 "load_metric";;
  call 71 "calculate_metric_on_test_ds";;
  logging_info "{dataframe_rouge}".

(** [empathetic_summaries.py:78-97]: the save of the figure sits in a
    [try] block. *)
Definition token_length_histograms : script unit :=
  call 79 "tokenizer.encode";;
  call 80 "tokenizer.encode";;
  call 82 "plt.subplots";;
  call 83 "axes[0].hist";;
  call 84 "axes[0].set_title";;
  call 85 "axes[0].set_xlabel";;
  call 86 "axes[0].set_ylabel";;
  call 87 "axes[1].hist";;
  call 88 "axes[1].set_title";;
  call 89 "axes[1].set_xlabel";;
  call 90 "plt.tight_layout";;
  call 91 "plt.show";;
  try_except
    (call 95 "plt.savefig")
    (fun e => logging_error "Error saving token histogram plot: {e}" e).

(** [empathetic_summaries.py:116-152]. *)
Definition prepare_and_train : script unit :=
  call 116 "dataset_empathic.map";;
  call 117 "DataCollatorForSeq2Seq";;
  logging_info "Setting up training arguments";;
  call 121 "TrainingArguments";;
  logging_info "Training arguments: {trainer_args}";;
  logging_info "Initialising trainer";;
  call 138 "Trainer";;
  logging_info "Starting training on the empathic dataset";;
  call 144 "trainer.train";;
  logging_info "Training complete on the empathic dataset";;
  call 148 "calculate_metric_on_test_ds";;
  logging_info "{pd.DataFrame(rouge_dict, index=[f'pegasus'])}".

(** [empathetic_summaries.py:155-158]. *)
Definition save_model_stage_1 : script unit :=
  try_except
    (call 156 "model_pegasus.save_pretrained")
    (fun e => logging_error "Error saving model stage 1: {e}" e).

(** [empathetic_summaries.py:161-165]. *)
Definition save_model : script unit :=
  try_except
    (call 162 "trainer.model.save_pretrained";;
     logging_info "Model saved successfully after empathic finetuning.")
    (fun e => logging_error "Error saving model: {e}" e).

(** [empathetic_summaries.py:167-171]. *)
Definition save_tokenizer : script unit :=
  try_except
    (call 168 "tokenizer.save_pretrained";;
     logging_info "Tokenizer saved successfully after empathic finetuning.")
    (fun e => logging_error "Error saving tokenizer: {e}" e).

(** [empathetic_summaries.py:178-188]. *)
Definition summarize_with_finetuned : script unit :=
  try_except
    (call 179 "pipeline";;
     call 180 "pipe";;
     logging_info "Utterance:";;
     logging_info "{sample_text}";;
     logging_info "\nReference Summary:";;
     logging_info "{reference}";;
     logging_info "\nModel Summary:";;
     logging_info "{model_summary}")
    (fun e => logging_error "Error during summarization: {e}" e).

(** The statements of [empathetic_summaries.py] from the first save of
    the model to the end of the script. *)
Definition after_training : script unit :=
  save_model_stage_1;;
  save_model;;
  save_tokenizer;;
  summarize_with_finetuned.

(** The whole of [empathetic_summaries.py]. *)
Definition main : script unit :=
  load_and_baseline;;
  token_length_histograms;;
  prepare_and_train;;
  after_training.

End Script.

End Empathetic.

(** ** Concrete inputs to run the definitions on *)

(** The direct tokenized target sequences: the summaries tokenized on the
    target side with truncation to 128. *)
Definition tokenized_target (T : tokenizer) (summary : list string) : list (list Z) :=
  enc_input_ids (tokenizer_call T as_target_tokenizer summary 128).

Definition sample_batch (column_text : string) : gmap string (list string) :=
  <[column_text := ["hi there"; "yo"]]> (<["summary" := ["ok"; ""]]> ∅).

(** ** Predicates the properties are stated with *)

(** The feature dictionary built from a source column and a summary column. *)
Definition features_of (T : tokenizer) (texts summary : list string)
  : gmap string (list (list Z)) :=
  <["input_ids" := enc_input_ids (tokenizer_call T as_source_tokenizer texts 1024)]>
    (<["attention_mask" := enc_attention_mask (tokenizer_call T as_source_tokenizer texts 1024)]>
      (<["labels" := map (shift_right T) (tokenized_target T summary)]> ∅)).

(** Example [i] of the target encodings: its decoder-input sequence and its
    label sequence are there, the label sequence is the tokenized target
    [ids], the decoder input is as long and starts with the padding id. *)
Definition shifted_at (T : tokenizer) (te : gmap string (list (list Z)))
    (i : nat) (ids : list Z) : Prop :=
  exists decoder_inputs labels decoder_input,
    te !! "input_ids" = Some decoder_inputs /\
    te !! "labels" = Some labels /\
    labels !! i = Some ids /\
    decoder_inputs !! i = Some decoder_input /\
    length decoder_input = length ids /\
    head decoder_input = Some (pad_token_id T).

(** The bounds of a returned feature dictionary. *)
Definition features_bounded (feats : gmap string (list (list Z))) : Prop :=
  exists input_ids attention_mask labels,
    feats !! "input_ids" = Some input_ids /\
    feats !! "attention_mask" = Some attention_mask /\
    feats !! "labels" = Some labels /\
    Forall (fun ids => length ids <= 1024) input_ids /\
    Forall (fun ids => length ids <= 128) labels /\
    length <$> attention_mask = length <$> input_ids.

(** The row positions a named split of [empathetic_summaries.py] selects in
    a source collection of [num_examples] rows. *)
Definition positions_of (pct_to_abs : nat -> nat -> nat) (name : string)
    (num_examples : nat) : list nat :=
  match Empathetic.train_valid_test_split !! name with
  | Some e => split_positions pct_to_abs e num_examples
  | None => []
  end.

(** The rows of a collection at a list of positions. *)
Definition rows_at {A : Type} (source : list A) (positions : list nat) : list A :=
  omap (fun i => source !! i) positions.

(** The size of the last of the batches of [n] examples by [b]. *)
Definition last_batch_size (n b : nat) : nat :=
  if n mod b =? 0 then b else n mod b.

(** What a callback must leave alone: the weights of the model, the state of
    the optimizer, the epoch of the trainer state and the control signals. *)
Definition same_training {W O M F : Type} (w w' : world W O M F) : Prop :=
  model_weights w' = model_weights w /\
  optimizer_state w' = optimizer_state w /\
  epoch w' = epoch w /\
  control w' = control w.

(** A statement that leaves the training alone, however it ends. *)
Definition observational {W O M F A : Type} (m : run (world W O M F) A) : Prop :=
  forall w, same_training w (m w).2.

(** A framework to run the evaluator on: the model echoes its input texts,
    the metric counts the predictions it was fed, every score is that
    count. *)
Definition stub_score (m : nat) : aggregate_score nat :=
  let r := {| precision := m; recall := m; fmeasure := m |} in
  {| low := r; mid := r; high := r |}.

Definition stub_framework : framework nat nat nat := {|
  generate := fun _ texts => Returns texts;
  add_batch := fun m predictions _ => m + length predictions;
  compute := fun m =>
    <["rouge1" := stub_score m]> (<["rouge2" := stub_score m]>
    (<["rougeL" := stub_score m]> (<["rougeLsum" := stub_score m]> ∅)));
  str_epoch := fun _ => "2.0";
  str_rouge_dict := fun d => if decide (length d = 4) then "{4 scores}" else "{}"
|}.

Definition stub_world : world nat nat nat nat := {|
  model_weights := 7;
  optimizer_state := 3;
  epoch := 2;
  control := {| should_training_stop := false; should_epoch_stop := false;
                should_save := false; should_evaluate := true; should_log := false |};
  rouge_metric := 0;
  generation_calls := [];
  log := []
|}.

Definition stub_dataset (n : nat) : list example :=
  (fun i => {| source_text := "dialogue"; summary := "summary" |}) <$> seq 0 n.

(** The pairs of the checkpoints whose attempt returned, and the error
    records of those whose attempt raised, both in the order of the
    checkpoints. *)
Definition successes (attempt : string -> outcome string) (checkpoints : list string)
  : list (string * string) :=
  omap (fun checkpoint =>
          match attempt checkpoint with
          | Returns text => Some (checkpoint, text)
          | Raises _ => None
          end) checkpoints.

Definition failures (attempt : string -> outcome string) (checkpoints : list string)
  : list event :=
  omap (fun checkpoint =>
          match attempt checkpoint with
          | Returns _ => None
          | Raises e => Some (LogError checkpoint e)
          end) checkpoints.

(** A root directory with three checkpoints, the second of which does not
    load; a pipeline is the name of its checkpoint. *)
Definition three_checkpoints (root : string) : list string :=
  ["checkpoint-1"; "checkpoint-2"; "checkpoint-3"].

Definition load_unless_corrupted (checkpoint : string) : outcome string :=
  if decide (checkpoint = "checkpoint-2")
  then Raises (Exception "cannot load")
  else Returns checkpoint.

Definition name_the_pipeline (pipe sample_text : string) (kw : gen_kwargs)
  : outcome string :=
  Returns ("summary by " +:+ pipe).

Definition sample_gen_kwargs : gen_kwargs :=
  {| length_penalty := "0.8"; num_beams := 8; max_length := 128 |}.

(** A script statement only ever adds to the trace. *)
Definition extends {A : Type} (m : script A) : Prop :=
  forall s, exists tr, (m s).2 = s ++ tr.

(** A script statement that returns, whatever the trace it starts from. *)
Definition returns (m : script unit) : Prop :=
  forall s, exists tr, m s = (Returns tt, s ++ tr).

(** A script statement that raises [e] right after the event [ev]. *)
Definition raises_after (m : script unit) (e : exn) (ev : event) : Prop :=
  forall s, exists tr, m s = (Raises e, s ++ tr ++ [ev]).

(** A script statement that returns with the events [evs] last. *)
Definition returns_ending (m : script unit) (evs : list event) : Prop :=
  forall s, exists tr, m s = (Returns tt, s ++ tr ++ evs).

(** ** Further code of the scripts *)

(** [text.replace(' .', '.\n')] at [trainer.py:61] and
    [empathetic_summaries.py:67]: every occurrence of a space followed by a
    full stop, found from left to right, becomes a full stop followed by a
    line feed (character 10). *)
Fixpoint replace_space_dot (text : string) : string :=
  match text with
  | EmptyString => EmptyString
  | String c rest =>
      match rest with
      | EmptyString => String c EmptyString
      | String d rest' =>
          if Ascii.eqb c " "%char && Ascii.eqb d "."%char
          then String "."%char (String (Ascii.ascii_of_nat 10) (replace_space_dot rest'))
          else String c (replace_space_dot rest)
      end
  end.

(** A space followed by a full stop at position [i] of a text. *)
Definition space_dot_at (text : string) (i : nat) : Prop :=
  String.get i text = Some " "%char /\ String.get (S i) text = Some "."%char.








(** * Properties *)

(** ** Dictionaries and the exception monad *)

Lemma bind_Returns {A B : Type} (a : A) (f : A -> outcome B) :
  Returns a ≫= f = f a.
Proof. reflexivity. Qed.

Lemma getitem_Some {V : Type} (d : gmap string V) (k : string) (v : V) :
  d !! k = Some v -> getitem d k = Returns v.
Proof. intros H. unfold getitem. rewrite H. reflexivity. Qed.

Lemma getitem_None {V : Type} (d : gmap string V) (k : string) :
  d !! k = None -> getitem d k = Raises (KeyError k).
Proof. intros H. unfold getitem. rewrite H. reflexivity. Qed.

Lemma batch_encoding_input_ids (e : encoding) :
  batch_encoding e !! "input_ids" = Some (enc_input_ids e).
Proof. unfold batch_encoding. rewrite lookup_insert_ne by done. apply lookup_insert_eq. Qed.

Lemma batch_encoding_attention_mask (e : encoding) :
  batch_encoding e !! "attention_mask" = Some (enc_attention_mask e).
Proof. unfold batch_encoding. apply lookup_insert_eq. Qed.

(** ** The shift to the right *)

Lemma slice_to_minus_one_length {A : Type} (ids : list A) :
  length (slice_to_minus_one ids) = length ids - 1.
Proof. unfold slice_to_minus_one. rewrite length_take. lia. Qed.

Lemma shift_right_length (T : tokenizer) (ids : list Z) :
  length (shift_right T ids) = S (length ids - 1).
Proof. unfold shift_right. simpl. rewrite slice_to_minus_one_length. reflexivity. Qed.

Lemma shift_right_length_nonempty (T : tokenizer) (ids : list Z) :
  ids <> [] -> length (shift_right T ids) = length ids.
Proof.
  intros Hne. rewrite shift_right_length.
  destruct ids as [|x ids]; [congruence | simpl; lia].
Qed.

Lemma shift_right_head (T : tokenizer) (ids : list Z) :
  head (shift_right T ids) = Some (pad_token_id T).
Proof. reflexivity. Qed.

(** A sequence with an element other than the padding id in front is changed
    by the shift. *)
Lemma shift_right_changes (T : tokenizer) (x : Z) (ids : list Z) :
  x <> pad_token_id T -> shift_right T (x :: ids) <> x :: ids.
Proof. intros Hx Heq. unfold shift_right in Heq. simpl in Heq. congruence. Qed.

(** ** Feature Converter: what the two functions return *)

Lemma trainer_target_encodings_eq (T : tokenizer) (summary : list string) :
  Trainer.target_encodings T summary
  = Returns (<["input_ids" := map (shift_right T) (tokenized_target T summary)]>
              (<["labels" := tokenized_target T summary]>
                (batch_encoding (tokenizer_call T as_target_tokenizer summary 128)))).
Proof.
  unfold Trainer.target_encodings, tokenized_target.
  rewrite (getitem_Some _ _ _ (batch_encoding_input_ids _)), bind_Returns.
  erewrite getitem_Some; [reflexivity |].
  rewrite lookup_insert_ne by done. apply batch_encoding_input_ids.
Qed.

Lemma empathetic_target_encodings_eq (T : tokenizer) (summary : list string) :
  Empathetic.target_encodings T summary
  = Returns (<["input_ids" := map (shift_right T) (tokenized_target T summary)]>
              (<["labels" := tokenized_target T summary]>
                (batch_encoding (tokenizer_call T as_target_tokenizer summary 128)))).
Proof.
  unfold Empathetic.target_encodings, tokenized_target.
  rewrite (getitem_Some _ _ _ (batch_encoding_input_ids _)), bind_Returns.
  erewrite getitem_Some; [reflexivity |].
  rewrite lookup_insert_ne by done. apply batch_encoding_input_ids.
Qed.

Lemma trainer_convert_eq (T : tokenizer) (example_batch : gmap string (list string))
    (dialogue summary : list string) :
  example_batch !! "dialogue" = Some dialogue ->
  example_batch !! "summary" = Some summary ->
  Trainer.convert_examples_to_features T example_batch
  = Returns (features_of T dialogue summary).
Proof.
  intros Hd Hs. unfold Trainer.convert_examples_to_features.
  rewrite (getitem_Some _ _ _ Hd), bind_Returns.
  rewrite (getitem_Some _ _ _ Hs), bind_Returns.
  rewrite trainer_target_encodings_eq, bind_Returns.
  rewrite (getitem_Some _ _ _ (batch_encoding_input_ids _)), bind_Returns.
  rewrite (getitem_Some _ _ _ (batch_encoding_attention_mask _)), bind_Returns.
  erewrite getitem_Some by apply lookup_insert_eq.
  reflexivity.
Qed.

Lemma empathetic_convert_eq (T : tokenizer) (example_batch : gmap string (list string))
    (utterance summary : list string) :
  example_batch !! "utterance" = Some utterance ->
  example_batch !! "summary" = Some summary ->
  Empathetic.convert_examples_to_features T example_batch
  = Returns (features_of T utterance summary).
Proof.
  intros Hu Hs. unfold Empathetic.convert_examples_to_features.
  rewrite (getitem_Some _ _ _ Hu), bind_Returns.
  rewrite (getitem_Some _ _ _ Hs), bind_Returns.
  rewrite empathetic_target_encodings_eq, bind_Returns.
  rewrite (getitem_Some _ _ _ (batch_encoding_input_ids _)), bind_Returns.
  rewrite (getitem_Some _ _ _ (batch_encoding_attention_mask _)), bind_Returns.
  erewrite getitem_Some by apply lookup_insert_eq.
  reflexivity.
Qed.

Lemma features_of_labels (T : tokenizer) (texts summary : list string) :
  features_of T texts summary !! "labels"
  = Some (map (shift_right T) (tokenized_target T summary)).
Proof.
  unfold features_of. rewrite !lookup_insert_ne by done. apply lookup_insert_eq.
Qed.

Example trainer_convert_sample :
  Trainer.convert_examples_to_features char_tokenizer (sample_batch "dialogue")
  = Returns (<["input_ids" := [[104; 105; 32; 116; 104; 101; 114; 101; 1]; [121; 111; 1]]%Z]>
         (<["attention_mask" := [[1; 1; 1; 1; 1; 1; 1; 1; 1]; [1; 1; 1]]%Z]>
           (<["labels" := [[0; 111; 107]; [0]]%Z]> ∅))).
Proof. vm_compute. reflexivity. Qed.

Lemma char_tokenizer_truncating : truncating char_tokenizer.
Proof.
  split.
  - intros mode texts n ids. simpl. intros Hin.
    apply list_elem_of_fmap in Hin as (s & -> & _).
    rewrite length_take. lia.
  - intros mode texts n. simpl. rewrite <- !list_fmap_compose.
    apply list_fmap_ext. intros i s _. simpl. apply length_replicate.
Qed.

(** ** Feature Converter: the claims *)

(** C1 (the code departs from it).  The ['labels'] field both functions
    return is not the direct tokenized target: at the batch with the
    summaries "ok" and "", whose tokenized targets are [111, 107, 1] and
    [1], both return the shifted sequences [0, 111, 107] and [0].  The copy
    stored under ['labels'] in the target encodings is never read. *)
Theorem convert_labels_at_sample :
  tokenized_target char_tokenizer ["ok"; ""] = [[111; 107; 1]; [1]]%Z /\
  (exists feats,
     Trainer.convert_examples_to_features char_tokenizer (sample_batch "dialogue")
     = Returns feats /\
     feats !! "labels" = Some [[0; 111; 107]; [0]]%Z) /\
  (exists feats,
     Empathetic.convert_examples_to_features char_tokenizer (sample_batch "utterance")
     = Returns feats /\
     feats !! "labels" = Some [[0; 111; 107]; [0]]%Z).
Proof.
  split; [reflexivity |].
  split.
  - eexists. split.
    + apply (trainer_convert_eq _ _ ["hi there"; "yo"] ["ok"; ""]); reflexivity.
    + rewrite features_of_labels. reflexivity.
  - eexists. split.
    + apply (empathetic_convert_eq _ _ ["hi there"; "yo"] ["ok"; ""]); reflexivity.
    + rewrite features_of_labels. reflexivity.
Qed.

(** For every tokenizer and batch, the returned ['labels'] are the shifted
    sequences, in both scripts. *)
Lemma convert_labels_shifted (T : tokenizer) (texts summary : list string)
    (b1 b2 : gmap string (list string)) :
  b1 !! "dialogue" = Some texts -> b1 !! "summary" = Some summary ->
  b2 !! "utterance" = Some texts -> b2 !! "summary" = Some summary ->
  exists feats,
    Trainer.convert_examples_to_features T b1 = Returns feats /\
    Empathetic.convert_examples_to_features T b2 = Returns feats /\
    feats !! "labels" = Some (map (shift_right T) (tokenized_target T summary)).
Proof.
  intros H1 H2 H3 H4. exists (features_of T texts summary).
  rewrite (trainer_convert_eq _ _ _ _ H1 H2), (empathetic_convert_eq _ _ _ _ H3 H4).
  rewrite features_of_labels. done.
Qed.

Lemma shifted_at_intro (T : tokenizer) (summary : list string) (i : nat) (ids : list Z) :
  tokenized_target T summary !! i = Some ids ->
  ids <> [] ->
  shifted_at T
    (<["input_ids" := map (shift_right T) (tokenized_target T summary)]>
      (<["labels" := tokenized_target T summary]>
        (batch_encoding (tokenizer_call T as_target_tokenizer summary 128))))
    i ids.
Proof.
  intros Hi Hne.
  exists (map (shift_right T) (tokenized_target T summary)),
    (tokenized_target T summary), (shift_right T ids).
  split; [apply lookup_insert_eq |].
  split; [rewrite lookup_insert_ne by done; apply lookup_insert_eq |].
  split; [exact Hi |].
  split; [change (map (shift_right T)) with (fmap (M:=list) (shift_right T));
          rewrite list_lookup_fmap, Hi; reflexivity |].
  split; [apply shift_right_length_nonempty, Hne | apply shift_right_head].
Qed.

(** C2.  For every example of a batch whose tokenized target [ids] is not
    empty, the target encodings of both scripts hold, at that example, the
    label sequence [ids] and a decoder-input sequence of the same length
    whose first element is the tokenizer's padding id. *)
Theorem decoder_input_same_length_and_pad (T : tokenizer) (summary : list string)
    (i : nat) (ids : list Z) :
  tokenized_target T summary !! i = Some ids ->
  ids <> [] ->
  (exists te, Trainer.target_encodings T summary = Returns te /\ shifted_at T te i ids) /\
  (exists te, Empathetic.target_encodings T summary = Returns te /\ shifted_at T te i ids).
Proof.
  intros Hi Hne. split; eexists; split.
  - apply trainer_target_encodings_eq.
  - apply shifted_at_intro; assumption.
  - apply empathetic_target_encodings_eq.
  - apply shifted_at_intro; assumption.
Qed.

Lemma decoder_input_same_length_and_pad_witness :
  (exists te, Trainer.target_encodings char_tokenizer ["ok"; ""] = Returns te
              /\ shifted_at char_tokenizer te 0 [111; 107; 1]%Z) /\
  (exists te, Empathetic.target_encodings char_tokenizer ["ok"; ""] = Returns te
              /\ shifted_at char_tokenizer te 0 [111; 107; 1]%Z).
Proof.
  apply (decoder_input_same_length_and_pad char_tokenizer ["ok"; ""] 0 [111; 107; 1]%Z).
  - reflexivity.
  - discriminate.
Defined.

(** Without the premise the lengths differ: the shift of an empty sequence
    has one element. *)
Example shift_right_empty (T : tokenizer) : shift_right T [] = [pad_token_id T].
Proof. reflexivity. Qed.

Lemma features_of_bounded (T : tokenizer) (texts summary : list string) :
  truncating T -> features_bounded (features_of T texts summary).
Proof.
  intros [Hbound Hmask].
  exists (enc_input_ids (tokenizer_call T as_source_tokenizer texts 1024)),
    (enc_attention_mask (tokenizer_call T as_source_tokenizer texts 1024)),
    (map (shift_right T) (tokenized_target T summary)).
  split; [apply lookup_insert_eq |].
  split; [unfold features_of; rewrite lookup_insert_ne by done; apply lookup_insert_eq |].
  split; [apply features_of_labels |].
  split; [apply Forall_forall; intros ids Hin; exact (Hbound _ _ _ _ Hin) |].
  split; [| apply Hmask].
  apply Forall_forall. intros dec Hin.
  change (map (shift_right T)) with (fmap (M:=list) (shift_right T)) in Hin.
  apply list_elem_of_fmap in Hin as (ids & -> & Hin).
  rewrite shift_right_length.
  pose proof (Hbound _ _ _ _ Hin). lia.
Qed.

(** C8.  With a tokenizer that truncates, both functions return, for a batch
    with a source column and a summary column, a dictionary whose input
    sequences come from the source texts alone and have at most 1024 ids,
    whose label sequences come from the summaries alone and have at most
    128 ids, and whose attention masks are as long as their inputs. *)
Theorem convert_examples_to_features_bounds (T : tokenizer)
    (b : gmap string (list string)) (texts summary : list string) :
  truncating T ->
  b !! "summary" = Some summary ->
  (b !! "dialogue" = Some texts ->
   exists feats,
     Trainer.convert_examples_to_features T b = Returns feats /\
     features_bounded feats /\
     feats !! "input_ids" = Some (enc_input_ids (tokenizer_call T as_source_tokenizer texts 1024)) /\
     feats !! "labels" = Some (map (shift_right T) (tokenized_target T summary))) /\
  (b !! "utterance" = Some texts ->
   exists feats,
     Empathetic.convert_examples_to_features T b = Returns feats /\
     features_bounded feats /\
     feats !! "input_ids" = Some (enc_input_ids (tokenizer_call T as_source_tokenizer texts 1024)) /\
     feats !! "labels" = Some (map (shift_right T) (tokenized_target T summary))).
Proof.
  intros HT Hs. split; intros Ht; exists (features_of T texts summary).
  - split; [apply trainer_convert_eq; assumption |].
    split; [apply features_of_bounded, HT |].
    split; [apply lookup_insert_eq | apply features_of_labels].
  - split; [apply empathetic_convert_eq; assumption |].
    split; [apply features_of_bounded, HT |].
    split; [apply lookup_insert_eq | apply features_of_labels].
Qed.

Lemma convert_examples_to_features_bounds_witness :
  exists feats,
    Trainer.convert_examples_to_features char_tokenizer (sample_batch "dialogue")
    = Returns feats /\
    features_bounded feats.
Proof.
  destruct (convert_examples_to_features_bounds char_tokenizer (sample_batch "dialogue")
              ["hi there"; "yo"] ["ok"; ""] char_tokenizer_truncating eq_refl)
    as [Htrainer _].
  destruct (Htrainer eq_refl) as (feats & Heq & Hb & _).
  exists feats. split; assumption.
Defined.

(** C9.  On batches that carry the same source texts, under ['dialogue'] for
    [trainer.py] and under ['utterance'] for [empathetic_summaries.py], and
    the same summary column, the two functions end the same way; with a
    summary column present both return the same feature dictionary. *)
Theorem convert_examples_to_features_agree (T : tokenizer)
    (b1 b2 : gmap string (list string)) (texts : list string) :
  b1 !! "dialogue" = Some texts ->
  b2 !! "utterance" = Some texts ->
  b1 !! "summary" = b2 !! "summary" ->
  Trainer.convert_examples_to_features T b1 = Empathetic.convert_examples_to_features T b2 /\
  (forall summary, b1 !! "summary" = Some summary ->
     Trainer.convert_examples_to_features T b1 = Returns (features_of T texts summary) /\
     Empathetic.convert_examples_to_features T b2 = Returns (features_of T texts summary)).
Proof.
  intros H1 H2 Hs. split.
  - destruct (b1 !! "summary") as [summary|] eqn:Hs1.
    + rewrite (trainer_convert_eq _ _ _ _ H1 Hs1).
      symmetry. apply empathetic_convert_eq; [assumption | congruence].
    + unfold Trainer.convert_examples_to_features, Empathetic.convert_examples_to_features.
      rewrite (getitem_Some _ _ _ H1), (getitem_Some _ _ _ H2), !bind_Returns.
      rewrite (getitem_None b1) by assumption.
      rewrite (getitem_None b2) by congruence.
      reflexivity.
  - intros summary Hs1. split.
    + apply trainer_convert_eq; assumption.
    + apply empathetic_convert_eq; [assumption | congruence].
Qed.

Lemma convert_examples_to_features_agree_witness :
  Trainer.convert_examples_to_features char_tokenizer (sample_batch "dialogue")
  = Empathetic.convert_examples_to_features char_tokenizer (sample_batch "utterance").
Proof.
  apply (convert_examples_to_features_agree char_tokenizer
           (sample_batch "dialogue") (sample_batch "utterance") ["hi there"; "yo"]);
    reflexivity.
Defined.

(** Without a source column the two functions raise different key errors. *)
Example convert_examples_to_features_missing_column :
  Trainer.convert_examples_to_features char_tokenizer ∅ = Raises (KeyError "dialogue") /\
  Empathetic.convert_examples_to_features char_tokenizer ∅ = Raises (KeyError "utterance").
Proof. split; reflexivity. Qed.

(** ** Dataset splits *)

Lemma rows_at_seq {A : Type} (source : list A) (len from_ : nat) :
  from_ + len <= length source ->
  rows_at source (seq from_ len) = take len (drop from_ source).
Proof.
  revert from_. induction len as [|len IH]; intros from_ Hle.
  - reflexivity.
  - destruct (lookup_lt_is_Some_2 source from_) as [x Hx]; [lia |].
    unfold rows_at in *. simpl. rewrite Hx.
    rewrite (drop_S _ _ _ Hx). simpl. f_equal.
    apply IH. lia.
Qed.

Section SlicingFacts.

Variable pct_to_abs : nat -> nat -> nat.

Lemma split_bounds_le (e : split_expr) (n : nat) :
  (split_bounds pct_to_abs e n).1 <= n /\ (split_bounds pct_to_abs e n).2 <= n.
Proof. unfold split_bounds. simpl. lia. Qed.

(** A split is the rows at its positions. *)
Lemma read_split_rows_at {A : Type} (source : list A) (e : split_expr) :
  read_split pct_to_abs source e
  = rows_at source (split_positions pct_to_abs e (length source)).
Proof.
  unfold read_split, split_positions.
  pose proof (split_bounds_le e (length source)) as [Hf Ht].
  destruct (split_bounds pct_to_abs e (length source)) as [from_ to].
  simpl in *. destruct (decide (from_ <= to)) as [Hle|Hgt].
  - symmetry. apply rows_at_seq. lia.
  - replace (to - from_) with 0 by lia. reflexivity.
Qed.

Lemma three_slices {A : Type} (source : list A) (a c : nat) :
  a <= c -> c <= length source ->
  take (a - 0) (drop 0 source) ++ take (c - a) (drop a source)
    ++ take (length source - c) (drop c source) = source.
Proof.
  intros Hac Hc.
  rewrite Nat.sub_0_r, drop_0.
  rewrite (take_ge (drop c source)) by (rewrite length_drop; lia).
  replace (drop c source) with (drop (c - a) (drop a source))
    by (rewrite drop_drop; f_equal; lia).
  rewrite take_drop. apply take_drop.
Qed.

Lemma three_ranges (n a c : nat) :
  a <= c -> c <= n ->
  seq 0 (a - 0) ++ seq a (c - a) ++ seq c (n - c) = seq 0 n.
Proof.
  intros Hac Hc. rewrite Nat.sub_0_r.
  transitivity (seq 0 (a + ((c - a) + (n - c)))); [| f_equal; lia].
  rewrite !seq_app. repeat f_equal; lia.
Qed.

End SlicingFacts.

Lemma train_valid_test_split_train :
  Empathetic.train_valid_test_split !! "train"
  = Some {| split_source := "train"; split_from := None; split_to := Some 80 |}.
Proof. reflexivity. Qed.

Lemma train_valid_test_split_validation :
  Empathetic.train_valid_test_split !! "validation"
  = Some {| split_source := "train"; split_from := Some 80; split_to := Some 90 |}.
Proof. reflexivity. Qed.

Lemma train_valid_test_split_test :
  Empathetic.train_valid_test_split !! "test"
  = Some {| split_source := "train"; split_from := Some 90; split_to := None |}.
Proof. reflexivity. Qed.

(** The default rounding keeps the 80% boundary at or below the 90% one. *)
Lemma pct_to_abs_closest_80_90 (n : nat) :
  pct_to_abs_closest 80 n <= pct_to_abs_closest 90 n.
Proof.
  unfold pct_to_abs_closest.
  pose proof (Nat.div_mod_eq (80 * n) 100) as H80.
  pose proof (Nat.div_mod_eq (90 * n) 100) as H90.
  pose proof (Nat.mod_upper_bound (80 * n) 100 ltac:(lia)) as B80.
  pose proof (Nat.mod_upper_bound (90 * n) 100 ltac:(lia)) as B90.
  set (q80 := 80 * n / 100) in *. set (r80 := (80 * n) mod 100) in *.
  set (q90 := 90 * n / 100) in *. set (r90 := (90 * n) mod 100) in *.
  repeat case_decide; repeat case_match; lia.
Qed.

Lemma load_dataset_eq {A : Type} (pct_to_abs : nat -> nat -> nat)
    (hub : gmap string (list A)) (source : list A) (name : string) (e : split_expr) :
  Empathetic.train_valid_test_split !! name = Some e ->
  hub !! split_source e = Some source ->
  Empathetic.load_dataset pct_to_abs hub name
  = Returns (read_split pct_to_abs source e).
Proof.
  intros He Hsrc. unfold Empathetic.load_dataset.
  rewrite (getitem_Some _ _ _ He), bind_Returns.
  rewrite (getitem_Some _ _ _ Hsrc), bind_Returns.
  reflexivity.
Qed.

(** C3.  Whenever the library places the 80% boundary at or below the 90%
    one, the three split expressions read off a source collection three
    splits that, one after the other, are the collection itself; their row
    positions, one after the other, are [0, ..., n-1], so that no position
    is in two splits and every position is in one; and each split is the
    rows at its positions. *)
Theorem percentage_splits_partition {A : Type} (pct_to_abs : nat -> nat -> nat)
    (hub : gmap string (list A)) (source : list A) :
  pct_to_abs 80 (length source) <= pct_to_abs 90 (length source) ->
  hub !! "train" = Some source ->
  exists train validation test,
    Empathetic.load_dataset pct_to_abs hub "train" = Returns train /\
    Empathetic.load_dataset pct_to_abs hub "validation" = Returns validation /\
    Empathetic.load_dataset pct_to_abs hub "test" = Returns test /\
    train ++ validation ++ test = source /\
    positions_of pct_to_abs "train" (length source)
      ++ positions_of pct_to_abs "validation" (length source)
      ++ positions_of pct_to_abs "test" (length source)
    = seq 0 (length source) /\
    NoDup (positions_of pct_to_abs "train" (length source)
             ++ positions_of pct_to_abs "validation" (length source)
             ++ positions_of pct_to_abs "test" (length source)) /\
    train = rows_at source (positions_of pct_to_abs "train" (length source)) /\
    validation = rows_at source (positions_of pct_to_abs "validation" (length source)) /\
    test = rows_at source (positions_of pct_to_abs "test" (length source)).
Proof.
  intros Hmono Hhub.
  set (n := length source) in *.
  assert (Hpos : positions_of pct_to_abs "train" n
                   ++ positions_of pct_to_abs "validation" n
                   ++ positions_of pct_to_abs "test" n = seq 0 n).
  { unfold positions_of.
    rewrite train_valid_test_split_train, train_valid_test_split_validation,
      train_valid_test_split_test.
    unfold split_positions, split_bounds. simpl.
    rewrite Nat.min_id. apply three_ranges; lia. }
  eexists _, _, _.
  split; [exact (load_dataset_eq _ _ _ _ _ train_valid_test_split_train Hhub) |].
  split; [exact (load_dataset_eq _ _ _ _ _ train_valid_test_split_validation Hhub) |].
  split; [exact (load_dataset_eq _ _ _ _ _ train_valid_test_split_test Hhub) |].
  split.
  { unfold read_split, split_bounds. simpl. fold n.
    rewrite Nat.min_id. apply three_slices; subst n; lia. }
  split; [exact Hpos |].
  split; [rewrite Hpos; apply NoDup_seq |].
  unfold positions_of.
  rewrite train_valid_test_split_train, train_valid_test_split_validation,
    train_valid_test_split_test.
  repeat split; apply read_split_rows_at.
Qed.

Lemma percentage_splits_partition_witness :
  exists train validation test,
    Empathetic.load_dataset pct_to_abs_closest
      (<["train" := [10; 11; 12; 13; 14]]> ∅) "train" = Returns train /\
    Empathetic.load_dataset pct_to_abs_closest
      (<["train" := [10; 11; 12; 13; 14]]> ∅) "validation" = Returns validation /\
    Empathetic.load_dataset pct_to_abs_closest
      (<["train" := [10; 11; 12; 13; 14]]> ∅) "test" = Returns test /\
    train ++ validation ++ test = [10; 11; 12; 13; 14].
Proof.
  destruct (percentage_splits_partition pct_to_abs_closest
              (<["train" := [10; 11; 12; 13; 14]]> ∅) [10; 11; 12; 13; 14])
    as (train & validation & test & H1 & H2 & H3 & H4 & _).
  - vm_compute. lia.
  - reflexivity.
  - exists train, validation, test. repeat split; assumption.
Defined.

(** With the library's default rounding the premise holds for every
    collection. *)
Corollary percentage_splits_partition_closest {A : Type} (source : list A) :
  read_split pct_to_abs_closest source
    {| split_source := "train"; split_from := None; split_to := Some 80 |}
  ++ read_split pct_to_abs_closest source
       {| split_source := "train"; split_from := Some 80; split_to := Some 90 |}
  ++ read_split pct_to_abs_closest source
       {| split_source := "train"; split_from := Some 90; split_to := None |}
  = source.
Proof.
  unfold read_split, split_bounds. simpl.
  rewrite Nat.min_id.
  pose proof (pct_to_abs_closest_80_90 (length source)).
  apply three_slices; lia.
Qed.

(** Five rows: 80% of 5 is 4, 90% of 5 is 4.5 and rounds to the even 4; the
    validation split is empty. *)
Example splits_of_five :
  Empathetic.load_dataset pct_to_abs_closest (<["train" := [10; 11; 12; 13; 14]]> ∅) "train"
  = Returns [10; 11; 12; 13] /\
  Empathetic.load_dataset pct_to_abs_closest (<["train" := [10; 11; 12; 13; 14]]> ∅) "validation"
  = Returns [] /\
  Empathetic.load_dataset pct_to_abs_closest (<["train" := [10; 11; 12; 13; 14]]> ∅) "test"
  = Returns [14].
Proof. repeat split; reflexivity. Qed.

(** ** Batching *)

Lemma chunks_concat {A : Type} (b : nat) (xs : list A) :
  0 < b -> concat (chunks b xs) = xs.
Proof.
  funelim (chunks b xs); intros Hb.
  - lia.
  - reflexivity.
  - simp chunks. cbn [concat].
    match goal with IH : _ -> concat _ = _ |- _ => rewrite (IH Hb) end.
    apply take_drop.
Qed.

Lemma chunks_sizes {A : Type} (b : nat) (xs : list A) :
  Forall (fun batch => 0 < length batch <= b) (chunks b xs).
Proof.
  funelim (chunks b xs); simp chunks; try constructor; [| assumption].
  rewrite length_take. simpl. lia.
Qed.

Lemma ceil_div_0 (b : nat) : 0 < b -> ceil_div 0 b = 0.
Proof. intros Hb. unfold ceil_div. apply Nat.div_small. lia. Qed.

Lemma ceil_div_step (n b : nat) :
  0 < b -> 0 < n -> ceil_div n b = S (ceil_div (n - b) b).
Proof.
  intros Hb Hn. unfold ceil_div.
  destruct (decide (b <= n)) as [Hle|Hlt].
  - replace (n + (b - 1)) with ((n - b + (b - 1)) + 1 * b) by lia.
    rewrite Nat.div_add by lia. lia.
  - replace (n - b) with 0 by lia.
    rewrite (Nat.div_small (0 + (b - 1))) by lia.
    symmetry. apply (Nat.div_unique _ _ _ (n - 1)); lia.
Qed.

(** [ceil_div] is the ceiling of the quotient. *)
Lemma ceil_div_spec (n b : nat) :
  0 < b -> b * (ceil_div n b) < n + b /\ n <= b * ceil_div n b.
Proof.
  intros Hb. unfold ceil_div.
  pose proof (Nat.div_mod_eq (n + (b - 1)) b) as Hdm.
  pose proof (Nat.mod_upper_bound (n + (b - 1)) b ltac:(lia)) as Hlt.
  lia.
Qed.

Lemma chunks_length {A : Type} (b : nat) (xs : list A) :
  0 < b -> length (chunks b xs) = ceil_div (length xs) b.
Proof.
  funelim (chunks b xs); intros Hb.
  - lia.
  - symmetry. apply (ceil_div_0 (S b)). lia.
  - simp chunks. cbn [length].
    match goal with IH : _ -> length (chunks _ _) = _ |- _ => rewrite (IH Hb) end.
    rewrite length_drop. symmetry.
    apply (ceil_div_step (length (x :: xs)) (S b)); simpl; lia.
Qed.

Lemma last_batch_size_step (n b : nat) :
  b < n -> last_batch_size (n - b) b = last_batch_size n b.
Proof.
  intros Hlt. unfold last_batch_size.
  assert (Hmod : n mod b = (n - b) mod b).
  { replace n with ((n - b) + 1 * b) at 1 by lia. apply Nat.Div0.mod_add. }
  rewrite Hmod. reflexivity.
Qed.

Lemma last_batch_size_small (n b : nat) :
  0 < n -> n <= b -> last_batch_size n b = n.
Proof.
  intros Hn Hle. unfold last_batch_size.
  destruct (decide (n = b)) as [->|Hne].
  - rewrite Nat.Div0.mod_same. reflexivity.
  - rewrite Nat.mod_small by lia.
    destruct (Nat.eqb_spec n 0); [lia | reflexivity].
Qed.

Lemma chunks_last {A : Type} (b : nat) (xs : list A) (batch : list A) :
  0 < b -> last (chunks b xs) = Some batch ->
  length batch = last_batch_size (length xs) b.
Proof.
  funelim (chunks b xs); intros Hb Hlast.
  - lia.
  - discriminate.
  - revert Hlast. simp chunks.
    destruct (decide (length (x :: xs) <= S b)) as [Hle|Hgt].
    + rewrite (drop_ge (x :: xs) (S b)) by exact Hle.
      rewrite (take_ge (x :: xs) (S b)) by exact Hle.
      simp chunks. cbn [last]. intros [= <-].
      symmetry. apply last_batch_size_small; [simpl; lia | exact Hle].
    + destruct (chunks (S b) (drop (S b) (x :: xs))) as [|c cs] eqn:Hc.
      * exfalso.
        assert (Hlen : length (chunks (S b) (drop (S b) (x :: xs))) = 0)
          by (rewrite Hc; reflexivity).
        rewrite chunks_length in Hlen by lia.
        rewrite length_drop in Hlen.
        pose proof (ceil_div_spec (length (x :: xs) - S b) (S b) ltac:(lia)). lia.
      * intros Hlast.
        match goal with
        | IH : forall _, _ -> last _ = _ -> _ |- _ =>
            rewrite (IH batch Hb Hlast)
        end.
        rewrite length_drop. apply last_batch_size_step. lia.
Qed.

Example chunks_of_five : chunks 2 [1; 2; 3; 4; 5] = [[1; 2]; [3; 4]; [5]].
Proof. reflexivity. Qed.

(** ** Statements that leave the training alone *)

Lemma run_bind_eq {S A B : Type} (m : run S A) (f : A -> run S B) (s : S) :
  (m ≫= f) s
  = match m s with
    | (Returns a, s') => f a s'
    | (Raises e, s') => (Raises e, s')
    end.
Proof. reflexivity. Qed.

Section Observational.

Context {W O M F : Type}.
Variable fw : framework W M F.

Lemma same_training_refl (w : world W O M F) : same_training w w.
Proof. repeat split. Qed.

Lemma same_training_trans (w1 w2 w3 : world W O M F) :
  same_training w1 w2 -> same_training w2 w3 -> same_training w1 w3.
Proof.
  intros (H1 & H2 & H3 & H4) (K1 & K2 & K3 & K4).
  repeat split; congruence.
Qed.

Lemma observational_ret {A : Type} (a : A) :
  observational (mret a : run (world W O M F) A).
Proof. intros w. apply same_training_refl. Qed.

Lemma observational_lift {A : Type} (o : outcome A) :
  observational (lift o : run (world W O M F) A).
Proof. intros w. apply same_training_refl. Qed.

Lemma observational_bind {A B : Type} (m : run (world W O M F) A)
    (f : A -> run (world W O M F) B) :
  observational m -> (forall a, observational (f a)) -> observational (m ≫= f).
Proof.
  intros Hm Hf w. rewrite run_bind_eq.
  specialize (Hm w). destruct (m w) as [[a|e] w1]; simpl in Hm.
  - eapply same_training_trans; [exact Hm | apply Hf].
  - exact Hm.
Qed.

Lemma observational_model_generate (trainer : object) (texts : list string) :
  observational (model_generate (O:=O) fw trainer texts).
Proof. intros w. unfold model_generate. destruct trainer; repeat split. Qed.

Lemma observational_metric_add_batch (predictions references : list string) :
  observational (metric_add_batch (O:=O) fw predictions references).
Proof. intros w. repeat split. Qed.

Lemma observational_metric_compute : observational (metric_compute (O:=O) fw).
Proof. intros w. repeat split. Qed.

Lemma observational_world_logging_info (msg : string) :
  observational (world_logging_info (W:=W) (O:=O) (M:=M) (F:=F) msg).
Proof. intros w. repeat split. Qed.

Lemma observational_state_epoch :
  observational (state_epoch (W:=W) (O:=O) (M:=M) (F:=F)).
Proof. intros w. repeat split. Qed.

Lemma observational_evaluate_batches (trainer : object) (batches : list (list example)) :
  observational (evaluate_batches (O:=O) fw trainer batches).
Proof.
  induction batches as [|batch batches IH].
  - apply observational_ret.
  - cbn [evaluate_batches]. apply observational_bind.
    + apply observational_model_generate.
    + intros decoded. apply observational_bind.
      * apply observational_metric_add_batch.
      * intros _. exact IH.
Qed.

Lemma observational_calculate_metric_on_test_ds (dataset : list example)
    (trainer : object) (batch_size : nat) :
  observational (calculate_metric_on_test_ds (O:=O) fw dataset trainer batch_size).
Proof.
  unfold calculate_metric_on_test_ds. apply observational_bind.
  - apply observational_evaluate_batches.
  - intros _. apply observational_metric_compute.
Qed.

Lemma observational_on_evaluate (eval_dataset : list example)
    (kwargs : gmap string object) :
  observational (Trainer.on_evaluate (O:=O) fw eval_dataset kwargs).
Proof.
  unfold Trainer.on_evaluate.
  apply observational_bind; [apply observational_lift | intros trainer].
  apply observational_bind;
    [apply observational_calculate_metric_on_test_ds | intros score].
  apply observational_bind; [apply observational_lift | intros rouge_dict].
  apply observational_bind; [apply observational_state_epoch | intros ep].
  apply observational_world_logging_info.
Qed.

(** ** The generation calls of the evaluator *)

Lemma evaluate_batches_returns (batches : list (list example)) (w : world W O M F) :
  (forall texts, exists decoded, generate fw (model_weights w) texts = Returns decoded) ->
  exists w',
    evaluate_batches fw the_model batches w = (Returns tt, w') /\
    generation_calls w' = generation_calls w ++ map (fun batch : list example => source_text <$> batch) batches /\
    log w' = log w.
Proof.
  revert w. induction batches as [|batch batches IH]; intros w Hgen.
  - exists w. repeat split. simpl. rewrite app_nil_r. reflexivity.
  - cbn [evaluate_batches]. rewrite run_bind_eq.
    unfold model_generate at 1.
    destruct (Hgen (source_text <$> batch)) as [decoded ->].
    rewrite run_bind_eq. unfold metric_add_batch at 1.
    match goal with
    | |- context [evaluate_batches fw the_model batches ?w1] =>
        destruct (IH w1 Hgen) as (w' & Heq & Hcalls & Hlog)
    end.
    exists w'. split; [exact Heq |].
    split; [rewrite Hcalls; simpl; rewrite <- app_assoc; reflexivity | exact Hlog].
Qed.

(** An exception of a generation call leaves the evaluator as it is. *)
Lemma evaluate_batches_propagates (batch : list example)
    (batches : list (list example)) (w : world W O M F) (e : exn) :
  generate fw (model_weights w) (source_text <$> batch) = Raises e ->
  (evaluate_batches fw the_model (batch :: batches) w).1 = Raises e.
Proof.
  intros Hgen. cbn [evaluate_batches]. rewrite run_bind_eq.
  unfold model_generate. rewrite Hgen. reflexivity.
Qed.

End Observational.

Lemma concat_map_fmap {A B : Type} (f : A -> B) (l : list (list A)) :
  concat (map (fun xs : list A => f <$> xs) l) = f <$> concat l.
Proof.
  induction l as [|xs l IH]; [reflexivity |].
  simpl. rewrite IH, fmap_app. reflexivity.
Qed.

Lemma last_map {A B : Type} (f : A -> B) (l : list A) :
  last (map f l) = f <$> last l.
Proof.
  induction l as [|x l IH]; [reflexivity |].
  destruct l as [|y l]; [reflexivity | exact IH].
Qed.

(** C4.  With a positive batch size [b] and a model whose generation
    returns, the evaluator run on a split of [n] examples issues one
    generation call per batch: the calls, one after the other, carry the
    source texts of the split in order and nothing else, there are
    [ceil(n / b)] of them, none is empty or larger than [b], and the last
    one has [n mod b] texts, or [b] when [n mod b] is 0. *)
Theorem batched_evaluation_calls {W O M F : Type} (fw : framework W M F)
    (dataset : list example) (b : nat) (w : world W O M F) :
  0 < b ->
  (forall texts, exists decoded, generate fw (model_weights w) texts = Returns decoded) ->
  exists w' batches,
    calculate_metric_on_test_ds fw dataset the_model b w
    = (Returns (compute fw (rouge_metric w')), w') /\
    generation_calls w' = generation_calls w ++ batches /\
    concat batches = source_text <$> dataset /\
    length batches = ceil_div (length dataset) b /\
    Forall (fun batch => 0 < length batch <= b) batches /\
    (forall batch, last batches = Some batch ->
       length batch = last_batch_size (length dataset) b) /\
    (0 < length dataset -> is_Some (last batches)).
Proof.
  intros Hb Hgen.
  destruct (evaluate_batches_returns fw (chunks b dataset) w Hgen)
    as (w' & Heval & Hcalls & _).
  exists w', (map (fun batch : list example => source_text <$> batch) (chunks b dataset)).
  split.
  { unfold calculate_metric_on_test_ds. rewrite run_bind_eq, Heval. reflexivity. }
  split; [exact Hcalls |].
  split; [rewrite concat_map_fmap, chunks_concat by exact Hb; reflexivity |].
  split; [rewrite length_map; apply chunks_length, Hb |].
  split.
  { apply Forall_forall. intros texts Hin.
    apply list_elem_of_In, in_map_iff in Hin as (batch & <- & Hin).
    rewrite length_fmap.
    pose proof (chunks_sizes b dataset) as Hs.
    rewrite Forall_forall in Hs. apply Hs, list_elem_of_In, Hin. }
  split.
  { intros texts. rewrite last_map.
    destruct (last (chunks b dataset)) as [batch|] eqn:Hlast; [| discriminate].
    intros [= <-]. rewrite length_fmap.
    apply (chunks_last b dataset batch Hb Hlast). }
  intros Hn. rewrite last_map.
  destruct (chunks b dataset) as [|c cs] eqn:Hc.
  - exfalso.
    assert (Hlen : length (chunks b dataset) = 0) by (rewrite Hc; reflexivity).
    rewrite chunks_length in Hlen by exact Hb.
    pose proof (ceil_div_spec (length dataset) b Hb). lia.
  - destruct (last (c :: cs)) eqn:Hl; [eexists; reflexivity |].
    apply last_None in Hl. discriminate.
Qed.

Lemma batched_evaluation_calls_witness :
  exists w' batches,
    calculate_metric_on_test_ds stub_framework (stub_dataset 5) the_model 2 stub_world
    = (Returns (compute stub_framework (rouge_metric w')), w') /\
    generation_calls w' = generation_calls stub_world ++ batches /\
    length batches = 3.
Proof.
  destruct (batched_evaluation_calls stub_framework (stub_dataset 5) 2 stub_world)
    as (w' & batches & H1 & H2 & _ & H4 & _).
  - lia.
  - intros texts. exists texts. reflexivity.
  - exists w', batches. repeat split; assumption.
Defined.

Example batched_evaluation_of_five :
  generation_calls
    (calculate_metric_on_test_ds stub_framework (stub_dataset 5) the_model 2 stub_world).2
  = [["dialogue"; "dialogue"]; ["dialogue"; "dialogue"]; ["dialogue"]].
Proof. reflexivity. Qed.

(** ** Evaluation callback *)

(** C7.  [on_evaluate] leaves the weights of the model, the state of the
    optimizer, the epoch and the control signals as they were, however it
    ends.  Handed the model under ['model'], with a generation that returns
    and a metric that computes the four ROUGE variants, it returns after
    running the evaluator over the evaluation split in batches of 8 and
    appending to the log one record with the scores and the current
    epoch. *)
Theorem on_evaluate_observes {W O M F : Type} (fw : framework W M F)
    (eval_dataset : list example) (kwargs : gmap string object) (w : world W O M F) :
  same_training w (Trainer.on_evaluate fw eval_dataset kwargs w).2 /\
  (kwargs !! "model" = Some the_model ->
   (forall texts, exists decoded, generate fw (model_weights w) texts = Returns decoded) ->
   (forall m, exists rouge_dict,
      rouge_dict_of (compute fw m) Trainer.rouge_names = Returns rouge_dict) ->
   exists w' rouge_dict,
     Trainer.on_evaluate fw eval_dataset kwargs w = (Returns tt, w') /\
     rouge_dict_of (compute fw (rouge_metric w')) Trainer.rouge_names = Returns rouge_dict /\
     (fst <$> rouge_dict) = Trainer.rouge_names /\
     log w' = log w ++ [LogInfo ("ROUGE scores after epoch " +:+ str_epoch fw (epoch w)
                                 +:+ ": " +:+ str_rouge_dict fw rouge_dict)] /\
     generation_calls w'
     = generation_calls w
       ++ map (fun batch : list example => source_text <$> batch) (chunks 8 eval_dataset)).
Proof.
  split; [apply observational_on_evaluate |].
  intros Hkw Hgen Hcompute.
  destruct (evaluate_batches_returns fw (chunks 8 eval_dataset) w Hgen)
    as (w1 & Heval & Hcalls & Hlog).
  destruct (Hcompute (rouge_metric w1)) as [rouge_dict Hrd].
  pose proof (observational_evaluate_batches fw the_model (chunks 8 eval_dataset) w)
    as (_ & _ & Hepoch & _).
  rewrite Heval in Hepoch. simpl in Hepoch.
  eexists _, rouge_dict. split.
  { unfold Trainer.on_evaluate. rewrite run_bind_eq.
    unfold lift at 1. rewrite (getitem_Some _ _ _ Hkw).
    rewrite run_bind_eq. unfold calculate_metric_on_test_ds.
    rewrite run_bind_eq, Heval. unfold metric_compute at 1.
    rewrite run_bind_eq. unfold lift at 1. rewrite Hrd.
    rewrite run_bind_eq. unfold state_epoch at 1.
    unfold world_logging_info. reflexivity. }
  split; [exact Hrd |].
  split.
  { clear -Hrd. unfold Trainer.rouge_names in *.
    simpl in Hrd.
    repeat match type of Hrd with
           | context [getitem ?d ?k] => destruct (getitem d k); simpl in Hrd; [| discriminate]
           end.
    injection Hrd as <-. reflexivity. }
  split; [simpl; rewrite Hlog, Hepoch; reflexivity | exact Hcalls].
Qed.

Lemma on_evaluate_observes_witness :
  exists w' rouge_dict,
    Trainer.on_evaluate stub_framework (stub_dataset 9) (<["model" := the_model]> ∅) stub_world
    = (Returns tt, w') /\
    log w' = log stub_world
             ++ [LogInfo ("ROUGE scores after epoch "
                          +:+ str_epoch stub_framework (epoch stub_world)
                          +:+ ": " +:+ str_rouge_dict stub_framework rouge_dict)] /\
    same_training stub_world w'.
Proof.
  destruct (on_evaluate_observes stub_framework (stub_dataset 9)
              (<["model" := the_model]> ∅) stub_world) as [Hframe Hreport].
  destruct Hreport as (w' & rouge_dict & Heq & _ & _ & Hlog & _).
  - reflexivity.
  - intros texts. exists texts. reflexivity.
  - intros m. eexists. reflexivity.
  - exists w', rouge_dict. rewrite Heq in Hframe. repeat split; try assumption; apply Hframe.
Defined.

Example on_evaluate_of_nine :
  Trainer.on_evaluate stub_framework (stub_dataset 9) (<["model" := the_model]> ∅) stub_world
  = (Returns tt,
     {| model_weights := 7;
        optimizer_state := 3;
        epoch := 2;
        control := control stub_world;
        rouge_metric := 9;
        generation_calls := [replicate 8 "dialogue"; ["dialogue"]];
        log := [LogInfo "ROUGE scores after epoch 2.0: {4 scores}"] |}).
Proof. vm_compute. reflexivity. Qed.

(** Handed something else than the model, the callback raises, and still
    leaves the training alone. *)
Example on_evaluate_wrong_object :
  (Trainer.on_evaluate stub_framework (stub_dataset 9) (<["model" := the_optimizer]> ∅)
     stub_world).1
  = Raises (Exception "object has no attribute generate").
Proof. vm_compute. reflexivity. Qed.

(** ** Checkpoint Summary Generator *)

Section CheckpointFacts.

Context {P : Type}.
Variable load_pipeline : string -> outcome P.
Variable run_pipeline : P -> string -> gen_kwargs -> outcome string.
Variable sample_text : string.
Variable kw : gen_kwargs.

Let attempt (checkpoint : string) : outcome string :=
  checkpoint_summary load_pipeline run_pipeline checkpoint sample_text kw.

Lemma summarize_checkpoints_eq (checkpoints : list string) (s : list event) :
  summarize_checkpoints load_pipeline run_pipeline checkpoints sample_text kw s
  = (Returns (successes attempt checkpoints), s ++ failures attempt checkpoints).
Proof.
  revert s. induction checkpoints as [|c checkpoints IH]; intros s.
  - simpl. rewrite app_nil_r. reflexivity.
  - cbn [summarize_checkpoints]. rewrite run_bind_eq.
    unfold try_except at 1. rewrite run_bind_eq. unfold lift at 1.
    destruct (checkpoint_summary load_pipeline run_pipeline c sample_text kw)
      as [text|e] eqn:Ha.
    + assert (Hs : successes attempt (c :: checkpoints)
                   = (c, text) :: successes attempt checkpoints)
        by (unfold successes, attempt; simpl; rewrite Ha; reflexivity).
      assert (Hf : failures attempt (c :: checkpoints) = failures attempt checkpoints)
        by (unfold failures, attempt; simpl; rewrite Ha; reflexivity).
      rewrite Hs, Hf. simpl. rewrite run_bind_eq, IH. reflexivity.
    + assert (Hs : successes attempt (c :: checkpoints) = successes attempt checkpoints)
        by (unfold successes, attempt; simpl; rewrite Ha; reflexivity).
      assert (Hf : failures attempt (c :: checkpoints)
                   = LogError c e :: failures attempt checkpoints)
        by (unfold failures, attempt; simpl; rewrite Ha; reflexivity).
      rewrite Hs, Hf. simpl. rewrite run_bind_eq, IH. simpl.
      rewrite <- app_assoc. reflexivity.
Qed.

Lemma successes_elem (checkpoints : list string) (c text : string) :
  (c, text) ∈ successes attempt checkpoints
  <-> c ∈ checkpoints /\ attempt c = Returns text.
Proof.
  unfold successes. rewrite list_elem_of_omap. split.
  - intros (c' & Hin & Hc'). destruct (attempt c') as [t|] eqn:Ha; [| discriminate].
    injection Hc' as -> ->. split; assumption.
  - intros [Hin Ha]. exists c. split; [assumption |]. rewrite Ha. reflexivity.
Qed.

Lemma failures_elem (checkpoints : list string) (c : string) (e : exn) :
  LogError c e ∈ failures attempt checkpoints
  <-> c ∈ checkpoints /\ attempt c = Raises e.
Proof.
  unfold failures. rewrite list_elem_of_omap. split.
  - intros (c' & Hin & Hc'). destruct (attempt c') as [|e'] eqn:Ha; [discriminate |].
    injection Hc' as -> ->. split; assumption.
  - intros [Hin Ha]. exists c. split; [assumption |]. rewrite Ha. reflexivity.
Qed.

Lemma successes_failures_length (checkpoints : list string) :
  length (successes attempt checkpoints) + length (failures attempt checkpoints)
  = length checkpoints.
Proof.
  induction checkpoints as [|c checkpoints IH]; [reflexivity |].
  unfold successes, failures in *. cbn [omap list_omap].
  destruct (attempt c); simpl; lia.
Qed.

End CheckpointFacts.

(** C5.  Whatever the root directory holds and however loading or running a
    checkpoint ends, the generator returns: with one pair for every
    checkpoint whose load and run returned, in the order of the directory,
    and one error record in the log for every checkpoint whose load or run
    raised, which has no pair. *)
Theorem generate_summaries_isolates_failures {P : Type}
    (listdir : string -> list string)
    (load_pipeline : string -> outcome P)
    (run_pipeline : P -> string -> gen_kwargs -> outcome string)
    (checkpoint_dir sample_text : string) (kw : gen_kwargs) (s : list event) :
  exists pairs errors,
    generate_summaries_for_checkpoints listdir load_pipeline run_pipeline
      checkpoint_dir sample_text kw s
    = (Returns pairs, s ++ errors) /\
    pairs = successes (fun c => checkpoint_summary load_pipeline run_pipeline c sample_text kw)
              (listdir checkpoint_dir) /\
    length pairs + length errors = length (listdir checkpoint_dir) /\
    (forall c text,
       c ∈ listdir checkpoint_dir ->
       checkpoint_summary load_pipeline run_pipeline c sample_text kw = Returns text ->
       (c, text) ∈ pairs) /\
    (forall c e,
       c ∈ listdir checkpoint_dir ->
       checkpoint_summary load_pipeline run_pipeline c sample_text kw = Raises e ->
       LogError c e ∈ errors /\ forall text, (c, text) ∉ pairs).
Proof.
  eexists _, _. split.
  { unfold generate_summaries_for_checkpoints. apply summarize_checkpoints_eq. }
  split; [reflexivity |].
  split; [apply successes_failures_length |].
  split.
  - intros c text Hin Ha. apply successes_elem. split; assumption.
  - intros c e Hin Ha. split.
    + apply failures_elem. split; assumption.
    + intros text Hpair. apply successes_elem in Hpair as [_ Hr]. congruence.
Qed.

(** Three checkpoints, the second one corrupted: two summaries, one error
    record, no exception. *)
Example generate_summaries_one_corrupted :
  generate_summaries_for_checkpoints three_checkpoints load_unless_corrupted
    name_the_pipeline "checkpoints" "sample" sample_gen_kwargs []
  = (Returns [("checkpoint-1", "summary by checkpoint-1");
              ("checkpoint-3", "summary by checkpoint-3")],
     [LogError "checkpoint-2" (Exception "cannot load")]).
Proof. vm_compute. reflexivity. Qed.

Lemma generate_summaries_isolates_failures_witness :
  exists pairs errors,
    generate_summaries_for_checkpoints three_checkpoints load_unless_corrupted
      name_the_pipeline "checkpoints" "sample" sample_gen_kwargs []
    = (Returns pairs, [] ++ errors) /\
    length pairs + length errors = 3.
Proof.
  destruct (generate_summaries_isolates_failures three_checkpoints load_unless_corrupted
              name_the_pipeline "checkpoints" "sample" sample_gen_kwargs [])
    as (pairs & errors & Heq & _ & Hlen & _).
  exists pairs, errors. split; assumption.
Defined.

(** ** The top-level statements of the scripts *)

Lemma try_except_eq {S A : Type} (body : run S A) (handler : exn -> run S A) (s : S) :
  try_except body handler s
  = match body s with
    | (Returns a, s') => (Returns a, s')
    | (Raises e, s') => handler e s'
    end.
Proof. reflexivity. Qed.

Lemma call_None (failing : gmap nat exn) (line : nat) (what : string) (s : list event) :
  failing !! line = None -> call failing line what s = (Returns tt, s ++ [Call line what]).
Proof. intros H. unfold call. rewrite H. reflexivity. Qed.

Lemma call_Some (failing : gmap nat exn) (line : nat) (what : string) (s : list event)
    (e : exn) :
  failing !! line = Some e -> call failing line what s = (Raises e, s ++ [Call line what]).
Proof. intros H. unfold call. rewrite H. reflexivity. Qed.

Lemma extends_ret {A : Type} (a : A) : extends (mret a).
Proof. intros s. exists []. simpl. rewrite app_nil_r. reflexivity. Qed.

Lemma extends_call (failing : gmap nat exn) (line : nat) (what : string) :
  extends (call failing line what).
Proof. intros s. exists [Call line what]. reflexivity. Qed.

Lemma extends_logging_info (msg : string) : extends (logging_info msg).
Proof. intros s. exists [LogInfo msg]. reflexivity. Qed.

Lemma extends_logging_error (msg : string) (e : exn) : extends (logging_error msg e).
Proof. intros s. exists [LogError msg e]. reflexivity. Qed.

Lemma extends_bind {A B : Type} (m : script A) (f : A -> script B) :
  extends m -> (forall a, extends (f a)) -> extends (m ≫= f).
Proof.
  intros Hm Hf s. rewrite run_bind_eq.
  destruct (Hm s) as [tr1 H1]. destruct (m s) as [[a|e] s1]; simpl in H1; subst s1.
  - destruct (Hf a (s ++ tr1)) as [tr2 H2]. exists (tr1 ++ tr2).
    rewrite H2, app_assoc. reflexivity.
  - exists tr1. reflexivity.
Qed.

Lemma extends_try_except {A : Type} (body : script A) (handler : exn -> script A) :
  extends body -> (forall e, extends (handler e)) -> extends (try_except body handler).
Proof.
  intros Hm Hh s. rewrite try_except_eq.
  destruct (Hm s) as [tr1 H1]. destruct (body s) as [[a|e] s1]; simpl in H1; subst s1.
  - exists tr1. reflexivity.
  - destruct (Hh e (s ++ tr1)) as [tr2 H2]. exists (tr1 ++ tr2).
    rewrite H2, app_assoc. reflexivity.
Qed.

#[local] Ltac extends_tac :=
  repeat first
    [ apply extends_call
    | apply extends_logging_info
    | apply extends_logging_error
    | apply extends_ret
    | apply extends_try_except; [| intros ?]
    | apply extends_bind; [| intros ?] ].

Lemma extends_empathetic_after_training (failing : gmap nat exn) :
  extends (Empathetic.after_training failing).
Proof.
  unfold Empathetic.after_training, Empathetic.save_model_stage_1, Empathetic.save_model,
    Empathetic.save_tokenizer, Empathetic.summarize_with_finetuned.
  cbv zeta. extends_tac.
Qed.

(** A [try] block whose handler only logs never raises. *)
Lemma try_except_logging_returns (body : script unit) (msg : string) (s : list event) :
  (try_except body (fun e => logging_error msg e) s).1 = Returns tt.
Proof.
  rewrite try_except_eq. destruct (body s) as [[[]|e] s1]; reflexivity.
Qed.

Lemma infix_here {A : Type} (l : list A) : l = [] ++ l.
Proof. reflexivity. Qed.

Lemma infix_further {A : Type} (x : A) (l tr0 r : list A) :
  l = tr0 ++ r -> x :: l = (x :: tr0) ++ r.
Proof. intros ->. reflexivity. Qed.

(** Find where in a trace a given run of events starts. *)
#[local] Ltac find_infix :=
  do 2 eexists;
  repeat first [ apply infix_here | apply infix_further ].

#[local] Ltac in_trace :=
  rewrite ?elem_of_app, ?elem_of_cons; tauto.

(** A guarded call that logs its success. *)
Lemma try_call_info_eq (failing : gmap nat exn) (line : nat)
    (what ok_msg err_msg : string) (s : list event) :
  try_except (call failing line what;; logging_info ok_msg)
    (fun e => logging_error err_msg e) s
  = (Returns tt,
     s ++ Call line what
       :: match failing !! line with
          | None => [LogInfo ok_msg]
          | Some e => [LogError err_msg e]
          end).
Proof.
  rewrite try_except_eq, run_bind_eq. unfold call, logging_info, logging_error.
  destruct (failing !! line); cbn [fst snd]; rewrite <- app_assoc; reflexivity.
Qed.

(** A guarded call that logs nothing on success. *)
Lemma try_call_eq (failing : gmap nat exn) (line : nat)
    (what err_msg : string) (s : list event) :
  try_except (call failing line what) (fun e => logging_error err_msg e) s
  = (Returns tt,
     s ++ Call line what
       :: match failing !! line with
          | None => []
          | Some e => [LogError err_msg e]
          end).
Proof.
  rewrite try_except_eq. unfold call, logging_error.
  destruct (failing !! line); cbn [fst snd]; rewrite <- ?app_assoc, ?app_nil_r; reflexivity.
Qed.

Lemma trainer_summarize_with_finetuned_eq (failing : gmap nat exn) (s : list event) :
  exists tr,
    Trainer.summarize_with_finetuned failing s
    = (Returns tt, s ++ Call 189 "pipeline" :: tr).
Proof.
  unfold Trainer.summarize_with_finetuned. cbv zeta.
  rewrite try_except_eq, !run_bind_eq. unfold call.
  unfold logging_info, logging_error.
  destruct (failing !! 189); [| destruct (failing !! 190)];
    simpl; eexists; rewrite <- !app_assoc; reflexivity.
Qed.

Lemma empathetic_summarize_with_finetuned_eq (failing : gmap nat exn) (s : list event) :
  exists tr,
    Empathetic.summarize_with_finetuned failing s
    = (Returns tt, s ++ Call 179 "pipeline" :: tr).
Proof.
  unfold Empathetic.summarize_with_finetuned. cbv zeta.
  rewrite try_except_eq, !run_bind_eq. unfold call.
  unfold logging_info, logging_error.
  destruct (failing !! 179); [| destruct (failing !! 180)];
    simpl; eexists; rewrite <- !app_assoc; reflexivity.
Qed.

Lemma trainer_checkpoint_summaries_eq (failing : gmap nat exn) (s : list event) :
  exists tr,
    (Trainer.checkpoint_summaries failing s).2 = s ++ tr /\
    (forall e, (Trainer.checkpoint_summaries failing s).1 = Raises e ->
       failing !! 201 = Some e \/ failing !! 211 = Some e).
Proof.
  unfold Trainer.checkpoint_summaries. cbv zeta.
  rewrite run_bind_eq. unfold call.
  destruct (failing !! 201); [| destruct (failing !! 211)];
    simpl; eexists; (split; [rewrite <- ?app_assoc; reflexivity |]);
    intros e' [=]; subst; auto.
Qed.

(** The trace of the statements of [trainer.py] after training. *)
Lemma trainer_after_training_eq (failing : gmap nat exn) (s : list event) :
  exists tr3 tr4,
    (Trainer.after_training failing s).2
    = s ++ (Call 165 "trainer.model.save_pretrained"
              :: match failing !! 165 with
                 | None => [LogInfo "Model saved successfully."]
                 | Some e => [LogError "Error saving model: {e}" e]
                 end)
        ++ (Call 178 "tokenizer.save_pretrained"
              :: match failing !! 178 with
                 | None => [LogInfo "Tokenizer saved successfully."]
                 | Some e => [LogError "Error saving tokenizer: {e}" e]
                 end)
        ++ (Call 189 "pipeline" :: tr3) ++ tr4 /\
    (forall e, (Trainer.after_training failing s).1 = Raises e ->
       failing !! 201 = Some e \/ failing !! 211 = Some e).
Proof.
  unfold Trainer.after_training, Trainer.save_model, Trainer.save_tokenizer. cbv zeta.
  rewrite run_bind_eq, try_call_info_eq.
  rewrite run_bind_eq, try_call_info_eq.
  rewrite run_bind_eq.
  match goal with
  | |- context [Trainer.summarize_with_finetuned failing ?s2] =>
      destruct (trainer_summarize_with_finetuned_eq failing s2) as [tr3 ->];
      match goal with
      | |- context [Trainer.checkpoint_summaries failing ?s3] =>
          destruct (trainer_checkpoint_summaries_eq failing s3) as (tr4 & H2 & H1)
      end
  end.
  exists tr3, tr4. split; [| exact H1].
  rewrite H2, <- !app_assoc. reflexivity.
Qed.

(** The trace of the statements of [empathetic_summaries.py] after
    training, which always return. *)
Lemma empathetic_after_training_eq (failing : gmap nat exn) (s : list event) :
  exists tr4,
    Empathetic.after_training failing s
    = (Returns tt,
       s ++ (Call 156 "model_pegasus.save_pretrained"
               :: match failing !! 156 with
                  | None => []
                  | Some e => [LogError "Error saving model stage 1: {e}" e]
                  end)
         ++ (Call 162 "trainer.model.save_pretrained"
               :: match failing !! 162 with
                  | None => [LogInfo "Model saved successfully after empathic finetuning."]
                  | Some e => [LogError "Error saving model: {e}" e]
                  end)
         ++ (Call 168 "tokenizer.save_pretrained"
               :: match failing !! 168 with
                  | None => [LogInfo "Tokenizer saved successfully after empathic finetuning."]
                  | Some e => [LogError "Error saving tokenizer: {e}" e]
                  end)
         ++ Call 179 "pipeline" :: tr4).
Proof.
  unfold Empathetic.after_training, Empathetic.save_model_stage_1,
    Empathetic.save_model, Empathetic.save_tokenizer. cbv zeta.
  rewrite run_bind_eq, try_call_eq.
  rewrite run_bind_eq, try_call_info_eq.
  rewrite run_bind_eq, try_call_info_eq.
  match goal with
  | |- context [Empathetic.summarize_with_finetuned failing ?s3] =>
      destruct (empathetic_summarize_with_finetuned_eq failing s3) as [tr4 ->]
  end.
  exists tr4. rewrite <- !app_assoc. reflexivity.
Qed.

(** C6.  Each save sits in a [try] block of its own whose handler logs the
    exception with the name of the step.  In [trainer.py] a failing save of
    the model is followed by its error record and then by the save of the
    tokenizer, a failing save of the tokenizer by its error record and then
    by the load of the summarization pipeline; the statements after
    training raise only what the two calls of the checkpoint report
    raise.  In [empathetic_summaries.py] the same holds of its three saves,
    and the statements after training always return. *)
Theorem save_failures_are_caught (failing : gmap nat exn) (s : list event) :
  (exists tr,
     (Trainer.after_training failing s).2 = s ++ tr /\
     Call 165 "trainer.model.save_pretrained" ∈ tr /\
     Call 178 "tokenizer.save_pretrained" ∈ tr /\
     Call 189 "pipeline" ∈ tr /\
     (forall e, failing !! 165 = Some e ->
        exists tr',
          tr = Call 165 "trainer.model.save_pretrained"
                 :: LogError "Error saving model: {e}" e
                 :: Call 178 "tokenizer.save_pretrained" :: tr') /\
     (forall e, failing !! 178 = Some e ->
        exists tr0 tr',
          tr = tr0 ++ [Call 178 "tokenizer.save_pretrained";
                       LogError "Error saving tokenizer: {e}" e;
                       Call 189 "pipeline"] ++ tr') /\
     (forall e, (Trainer.after_training failing s).1 = Raises e ->
        failing !! 201 = Some e \/ failing !! 211 = Some e)) /\
  (exists tr,
     (Empathetic.after_training failing s).2 = s ++ tr /\
     (Empathetic.after_training failing s).1 = Returns tt /\
     Call 156 "model_pegasus.save_pretrained" ∈ tr /\
     Call 162 "trainer.model.save_pretrained" ∈ tr /\
     Call 168 "tokenizer.save_pretrained" ∈ tr /\
     Call 179 "pipeline" ∈ tr /\
     (forall e, failing !! 156 = Some e ->
        exists tr',
          tr = Call 156 "model_pegasus.save_pretrained"
                 :: LogError "Error saving model stage 1: {e}" e
                 :: Call 162 "trainer.model.save_pretrained" :: tr') /\
     (forall e, failing !! 162 = Some e ->
        exists tr0 tr',
          tr = tr0 ++ [Call 162 "trainer.model.save_pretrained";
                       LogError "Error saving model: {e}" e;
                       Call 168 "tokenizer.save_pretrained"] ++ tr') /\
     (forall e, failing !! 168 = Some e ->
        exists tr0 tr',
          tr = tr0 ++ [Call 168 "tokenizer.save_pretrained";
                       LogError "Error saving tokenizer: {e}" e;
                       Call 179 "pipeline"] ++ tr')).
Proof.
  split.
  - destruct (trainer_after_training_eq failing s) as (tr3 & tr4 & Htr & Hraise).
    eexists. split; [exact Htr |].
    split; [in_trace |]. split; [in_trace |]. split; [in_trace |].
    split; [| split; [| exact Hraise]].
    + intros e ->. eexists. reflexivity.
    + intros e ->. destruct (failing !! 165); cbn [app]; find_infix.
  - destruct (empathetic_after_training_eq failing s) as (tr4 & Heq).
    eexists. rewrite Heq. split; [reflexivity |]. split; [reflexivity |].
    split; [in_trace |]. split; [in_trace |]. split; [in_trace |]. split; [in_trace |].
    split; [| split].
    + intros e ->. eexists. reflexivity.
    + intros e ->. destruct (failing !! 156); cbn [app]; find_infix.
    + intros e ->. destruct (failing !! 156), (failing !! 162); cbn [app]; find_infix.
Qed.

Lemma save_failures_are_caught_witness :
  exists tr',
    (Trainer.after_training (<[165 := Exception "disk full"]> ∅) []).2
    = [] ++ Call 165 "trainer.model.save_pretrained"
         :: LogError "Error saving model: {e}" (Exception "disk full")
         :: Call 178 "tokenizer.save_pretrained" :: tr'.
Proof.
  destruct (save_failures_are_caught (<[165 := Exception "disk full"]> ∅) [])
    as [(tr & Htr & _ & _ & _ & Hmodel & _) _].
  destruct (Hmodel (Exception "disk full") eq_refl) as [tr' ->].
  exists tr'. exact Htr.
Defined.

Example trainer_after_training_model_save_fails :
  Trainer.after_training (<[165 := Exception "disk full"]> ∅) []
  = (Returns tt,
     [Call 165 "trainer.model.save_pretrained";
      LogError "Error saving model: {e}" (Exception "disk full");
      Call 178 "tokenizer.save_pretrained";
      LogInfo "Tokenizer saved successfully.";
      Call 189 "pipeline";
      Call 190 "pipe";
      LogInfo "Dialogue:";
      LogInfo "{sample_text}";
      LogInfo "\nReference Summary:";
      LogInfo "{reference}";
      LogInfo "\nModel Summary:";
      LogInfo "{model_summary}";
      Call 201 "import checkpoint_summarizer";
      Call 211 "generate_summaries_for_checkpoints"]).
Proof. vm_compute. reflexivity. Qed.

(** ** The save of the histogram image *)

Lemma run_bind_assoc {S A B C : Type} (m : run S A) (f : A -> run S B)
    (g : B -> run S C) (s : S) :
  ((m ≫= f) ≫= g) s = (m ≫= fun a => f a ≫= g) s.
Proof.
  rewrite !run_bind_eq. destruct (m s) as [[a|e] s1]; [| reflexivity].
  rewrite run_bind_eq. reflexivity.
Qed.

Lemma starts_with_call {A : Type} (failing : gmap nat exn) (line : nat) (what : string)
    (k : unit -> script A) (s : list event) :
  (forall u, extends (k u)) ->
  exists tr, ((call failing line what ≫= k) s).2 = s ++ Call line what :: tr.
Proof.
  intros Hk. rewrite run_bind_eq. unfold call.
  destruct (failing !! line).
  - exists []. reflexivity.
  - destruct (Hk tt (s ++ [Call line what])) as [tr Htr].
    exists tr. rewrite Htr, <- app_assoc. reflexivity.
Qed.

Lemma returns_call (failing : gmap nat exn) (line : nat) (what : string) :
  failing !! line = None -> returns (call failing line what).
Proof. intros H s. exists [Call line what]. apply call_None, H. Qed.

Lemma returns_logging_info (msg : string) : returns (logging_info msg).
Proof. intros s. exists [LogInfo msg]. reflexivity. Qed.

Lemma returns_bind (m : script unit) (f : unit -> script unit) :
  returns m -> returns (f tt) -> returns (m ≫= f).
Proof.
  intros Hm Hf s. rewrite run_bind_eq.
  destruct (Hm s) as [tr1 ->]. destruct (Hf (s ++ tr1)) as [tr2 ->].
  exists (tr1 ++ tr2). rewrite app_assoc. reflexivity.
Qed.

Lemma raises_after_call (failing : gmap nat exn) (line : nat) (what : string) (e : exn) :
  failing !! line = Some e -> raises_after (call failing line what) e (Call line what).
Proof. intros H s. exists []. apply call_Some, H. Qed.

Lemma raises_after_bind_later (m : script unit) (f : unit -> script unit)
    (e : exn) (ev : event) :
  returns m -> raises_after (f tt) e ev -> raises_after (m ≫= f) e ev.
Proof.
  intros Hm Hf s. rewrite run_bind_eq.
  destruct (Hm s) as [tr1 ->]. destruct (Hf (s ++ tr1)) as [tr2 ->].
  exists (tr1 ++ tr2). rewrite !app_assoc. reflexivity.
Qed.

Lemma raises_after_bind_now (m : script unit) (f : unit -> script unit)
    (e : exn) (ev : event) :
  raises_after m e ev -> raises_after (m ≫= f) e ev.
Proof.
  intros Hm s. rewrite run_bind_eq. destruct (Hm s) as [tr ->].
  exists tr. reflexivity.
Qed.

(** A sequence of calls and log records whose calls all return. *)
#[local] Ltac returns_tac Hpre :=
  repeat first
    [ apply returns_logging_info
    | apply returns_call; apply Hpre; lia
    | apply returns_bind ].

Lemma trainer_load_and_baseline_returns (failing : gmap nat exn) :
  (forall line, line < 87 -> failing !! line = None) ->
  returns (Trainer.load_and_baseline failing).
Proof. intros Hpre. unfold Trainer.load_and_baseline. cbv zeta. returns_tac Hpre. Qed.

Lemma trainer_histograms_raise (failing : gmap nat exn) (e : exn) :
  (forall line, line < 87 -> failing !! line = None) ->
  failing !! 87 = Some e ->
  raises_after (Trainer.token_length_histograms failing) e (Call 87 "plt.savefig").
Proof.
  intros Hpre H87. unfold Trainer.token_length_histograms. cbv zeta.
  repeat (apply raises_after_bind_later; [apply returns_call; apply Hpre; lia |]).
  apply raises_after_call, H87.
Qed.

Lemma trainer_main_stops_at_savefig (failing : gmap nat exn) (e : exn) (s : list event) :
  (forall line, line < 87 -> failing !! line = None) ->
  failing !! 87 = Some e ->
  exists tr, Trainer.main failing s = (Raises e, s ++ tr ++ [Call 87 "plt.savefig"]).
Proof.
  intros Hpre H87. unfold Trainer.main.
  apply (raises_after_bind_later _ _ e (Call 87 "plt.savefig")).
  - apply trainer_load_and_baseline_returns, Hpre.
  - apply raises_after_bind_now. apply trainer_histograms_raise; assumption.
Qed.

Lemma returns_ending_bind_later (m : script unit) (f : unit -> script unit)
    (evs : list event) :
  returns m -> returns_ending (f tt) evs -> returns_ending (m ≫= f) evs.
Proof.
  intros Hm Hf s. rewrite run_bind_eq.
  destruct (Hm s) as [tr1 ->]. destruct (Hf (s ++ tr1)) as [tr2 ->].
  exists (tr1 ++ tr2). rewrite !app_assoc. reflexivity.
Qed.

Lemma empathetic_load_and_baseline_returns (failing : gmap nat exn) :
  (forall line, line < 95 -> failing !! line = None) ->
  returns (Empathetic.load_and_baseline failing).
Proof. intros Hpre. unfold Empathetic.load_and_baseline. cbv zeta. returns_tac Hpre. Qed.

Lemma empathetic_histograms_caught (failing : gmap nat exn) (e : exn) :
  (forall line, line < 95 -> failing !! line = None) ->
  failing !! 95 = Some e ->
  returns_ending (Empathetic.token_length_histograms failing)
    [Call 95 "plt.savefig"; LogError "Error saving token histogram plot: {e}" e].
Proof.
  intros Hpre H95. unfold Empathetic.token_length_histograms. cbv zeta.
  repeat (apply returns_ending_bind_later; [apply returns_call; apply Hpre; lia |]).
  intros s. exists []. rewrite try_call_eq, H95. reflexivity.
Qed.

(** The guarded save of the figure in [empathetic_summaries.py] returns
    whether or not [plt.savefig] raises. *)
Lemma empathetic_savefig_never_raises (failing : gmap nat exn) (s : list event) :
  (try_except (call failing 95 "plt.savefig")
     (fun e => logging_error "Error saving token histogram plot: {e}" e) s).1
  = Returns tt.
Proof. apply try_except_logging_returns. Qed.

Lemma empathetic_rest_starts (failing : gmap nat exn) (s : list event) :
  exists tr,
    ((Empathetic.prepare_and_train failing ≫= fun _ => Empathetic.after_training failing)
       s).2
    = s ++ Call 116 "dataset_empathic.map" :: tr.
Proof.
  unfold Empathetic.prepare_and_train. cbv zeta.
  rewrite run_bind_assoc. apply starts_with_call.
  intros _. apply extends_bind; [| intros _; apply extends_empathetic_after_training].
  extends_tac.
Qed.

(** C10.  In [trainer.py], when every call before the save of the figure
    returns and the save raises, the script ends with that exception and the
    save is the last thing it did.  In [empathetic_summaries.py], under the
    same premise, the save is followed by its error record and then by the
    next statement of the script, the mapping of the dataset. *)
Theorem histogram_save_asymmetry (failing : gmap nat exn) (e : exn) (s : list event) :
  ((forall line, line < 87 -> failing !! line = None) ->
   failing !! 87 = Some e ->
   exists tr,
     Trainer.main failing s = (Raises e, s ++ tr ++ [Call 87 "plt.savefig"])) /\
  ((forall line, line < 95 -> failing !! line = None) ->
   failing !! 95 = Some e ->
   exists tr0 tr',
     (Empathetic.main failing s).2
     = s ++ tr0 ++ [Call 95 "plt.savefig";
                    LogError "Error saving token histogram plot: {e}" e;
                    Call 116 "dataset_empathic.map"] ++ tr').
Proof.
  split; intros Hpre Hsave.
  - apply trainer_main_stops_at_savefig; assumption.
  - unfold Empathetic.main. rewrite run_bind_eq.
    destruct (empathetic_load_and_baseline_returns failing Hpre s) as [tr1 ->].
    rewrite run_bind_eq.
    destruct (empathetic_histograms_caught failing e Hpre Hsave (s ++ tr1)) as [tr2 ->].
    destruct (empathetic_rest_starts failing
                ((s ++ tr1) ++ tr2
                 ++ [Call 95 "plt.savefig";
                     LogError "Error saving token histogram plot: {e}" e]))
      as [tr3 Hrest].
    exists (tr1 ++ tr2), tr3.
    etransitivity; [exact Hrest |].
    rewrite <- !app_assoc. reflexivity.
Qed.

Lemma only_line_fails (line : nat) (e : exn) (other : nat) :
  other < line -> ({[line := e]} : gmap nat exn) !! other = None.
Proof. intros Hlt. apply lookup_singleton_ne. lia. Qed.

Lemma histogram_save_asymmetry_witness :
  (exists tr,
     Trainer.main {[87 := Exception "no such directory"]} []
     = (Raises (Exception "no such directory"), [] ++ tr ++ [Call 87 "plt.savefig"])) /\
  (exists tr0 tr',
     (Empathetic.main {[95 := Exception "no such directory"]} []).2
     = [] ++ tr0 ++ [Call 95 "plt.savefig";
                     LogError "Error saving token histogram plot: {e}"
                       (Exception "no such directory");
                     Call 116 "dataset_empathic.map"] ++ tr').
Proof.
  split.
  - apply (histogram_save_asymmetry {[87 := Exception "no such directory"]}
             (Exception "no such directory") []).
    + intros line Hlt. apply only_line_fails, Hlt.
    + reflexivity.
  - apply (histogram_save_asymmetry {[95 := Exception "no such directory"]}
             (Exception "no such directory") []).
    + intros line Hlt. apply only_line_fails, Hlt.
    + reflexivity.
Defined.

Example trainer_main_savefig_fails :
  Trainer.main {[87 := Exception "no such directory"]} []
  = (Raises (Exception "no such directory"),
     [Call 33 "nltk.download"; Call 36 "torch.cuda.is_available";
      LogInfo "Device set to {device}";
      LogInfo "Loading model and tokenizer from checkpoint {model_ckpt}";
      Call 42 "AutoTokenizer.from_pretrained";
      Call 43 "AutoModelForSeq2SeqLM.from_pretrained(model_ckpt).to";
      LogInfo "Model loaded: {model_pegasus}";
      LogInfo "Loading samsum dataset";
      Call 49 "load_dataset";
      LogInfo "Split lengths: {[len(dataset_samsum[split]) for split in dataset_samsum]}";
      LogInfo "Features: {dataset_samsum['train'].column_names}";
      LogInfo "\nDialogue:";
      LogInfo "{dataset_samsum['test'][1]['dialogue']}";
      LogInfo "\nSummary:";
      LogInfo "{dataset_samsum['test'][1]['summary']}";
      Call 58 "pipeline"; Call 59 "pipe";
      LogInfo "{pipe_out}";
      LogInfo "{pipe_out[0]['summary_text'].replace(' .', '.\n')}";
      Call 64 "load_metric"; Call 65 "calculate_metric_on_test_ds";
      LogInfo "{dataframe_rouge}";
      Call 73 "tokenizer.encode"; Call 74 "tokenizer.encode";
      Call 76 "plt.subplots"; Call 77 "axes[0].hist"; Call 78 "axes[0].set_title";
      Call 79 "axes[0].set_xlabel"; Call 80 "axes[0].set_ylabel";
      Call 81 "axes[1].hist"; Call 82 "axes[1].set_title";
      Call 83 "axes[1].set_xlabel"; Call 84 "plt.tight_layout";
      Call 85 "plt.show"; Call 87 "plt.savefig"]).
Proof. vm_compute. reflexivity. Qed.

(** * Further properties of the scripts *)

(** ** Feature Converter: keys, errors and alignment *)

Lemma trainer_convert_no_source (T : tokenizer) (b : gmap string (list string)) :
  b !! "dialogue" = None ->
  Trainer.convert_examples_to_features T b = Raises (KeyError "dialogue").
Proof.
  intros H. unfold Trainer.convert_examples_to_features.
  rewrite (getitem_None _ _ H). reflexivity.
Qed.

Lemma trainer_convert_no_summary (T : tokenizer) (b : gmap string (list string))
    (texts : list string) :
  b !! "dialogue" = Some texts -> b !! "summary" = None ->
  Trainer.convert_examples_to_features T b = Raises (KeyError "summary").
Proof.
  intros H1 H2. unfold Trainer.convert_examples_to_features.
  rewrite (getitem_Some _ _ _ H1), bind_Returns, (getitem_None _ _ H2). reflexivity.
Qed.

Lemma empathetic_convert_no_source (T : tokenizer) (b : gmap string (list string)) :
  b !! "utterance" = None ->
  Empathetic.convert_examples_to_features T b = Raises (KeyError "utterance").
Proof.
  intros H. unfold Empathetic.convert_examples_to_features.
  rewrite (getitem_None _ _ H). reflexivity.
Qed.

Lemma empathetic_convert_no_summary (T : tokenizer) (b : gmap string (list string))
    (texts : list string) :
  b !! "utterance" = Some texts -> b !! "summary" = None ->
  Empathetic.convert_examples_to_features T b = Raises (KeyError "summary").
Proof.
  intros H1 H2. unfold Empathetic.convert_examples_to_features.
  rewrite (getitem_Some _ _ _ H1), bind_Returns, (getitem_None _ _ H2). reflexivity.
Qed.

Lemma convert_outcomes (T : tokenizer)
    (b : gmap string (list string)) :
  (Trainer.convert_examples_to_features T b
   = match b !! "dialogue", b !! "summary" with
     | None, _ => Raises (KeyError "dialogue")
     | Some _, None => Raises (KeyError "summary")
     | Some texts, Some summary => Returns (features_of T texts summary)
     end) /\
  (Empathetic.convert_examples_to_features T b
   = match b !! "utterance", b !! "summary" with
     | None, _ => Raises (KeyError "utterance")
     | Some _, None => Raises (KeyError "summary")
     | Some texts, Some summary => Returns (features_of T texts summary)
     end).
Proof.
  split.
  - destruct (b !! "dialogue") as [texts|] eqn:Hd;
      [destruct (b !! "summary") as [summary|] eqn:Hs |].
    + apply trainer_convert_eq; assumption.
    + eapply trainer_convert_no_summary; eassumption.
    + apply trainer_convert_no_source; assumption.
  - destruct (b !! "utterance") as [texts|] eqn:Hd;
      [destruct (b !! "summary") as [summary|] eqn:Hs |].
    + apply empathetic_convert_eq; assumption.
    + eapply empathetic_convert_no_summary; eassumption.
    + apply empathetic_convert_no_source; assumption.
Qed.

(** X1.  Both functions return exactly when the batch has their source
    column and the summary column.  Without the source column they raise the
    key error of that column, whether or not there is a summary column; with
    it and without a summary column they raise the key error of
    ['summary']. *)
Theorem convert_examples_to_features_key_errors (T : tokenizer)
    (b : gmap string (list string)) :
  (Trainer.convert_examples_to_features T b
   = match b !! "dialogue", b !! "summary" with
     | None, _ => Raises (KeyError "dialogue")
     | Some _, None => Raises (KeyError "summary")
     | Some texts, Some summary => Returns (features_of T texts summary)
     end) /\
  (Empathetic.convert_examples_to_features T b
   = match b !! "utterance", b !! "summary" with
     | None, _ => Raises (KeyError "utterance")
     | Some _, None => Raises (KeyError "summary")
     | Some texts, Some summary => Returns (features_of T texts summary)
     end).
Proof. exact (convert_outcomes T b). Qed.




Lemma shift_right_lookup_S (T : tokenizer) (ids : list Z) (i : nat) :
  S i < length ids -> shift_right T ids !! S i = ids !! i.
Proof.
  intros Hlt. unfold shift_right, slice_to_minus_one. simpl.
  apply lookup_take_lt. lia.
Qed.

(** X3.  [[pad] + ids[:-1]] followed by the last element of [ids] and
    without its first element is [ids] again: the shift loses the last
    token of the target and nothing else. *)
Theorem shift_right_round_trip (T : tokenizer) (ids : list Z) (x : Z) :
  last ids = Some x ->
  drop 1 (shift_right T ids) ++ [x] = ids.
Proof.
  intros Hlast. unfold shift_right, slice_to_minus_one. simpl. rewrite drop_0.
  destruct (last_Some ids x) as [Hl _]. destruct (Hl Hlast) as [l' ->].
  rewrite length_app. simpl.
  replace (length l' + 1 - 1) with (length l') by lia.
  rewrite take_app_length. reflexivity.
Qed.

Lemma shift_right_round_trip_witness :
  drop 1 (shift_right char_tokenizer [111; 107; 1]%Z) ++ [1%Z] = [111; 107; 1]%Z.
Proof.
  apply (shift_right_round_trip char_tokenizer [111; 107; 1]%Z 1%Z). reflexivity.
Defined.

(** The label sequences [features_of] holds, one per tokenized target. *)
Lemma features_of_labels_aligned (T : tokenizer) (texts summary : list string) :
  exists labels,
    features_of T texts summary !! "labels" = Some labels /\
    length labels = length (tokenized_target T summary) /\
    forall j ids,
      tokenized_target T summary !! j = Some ids ->
      exists label,
        labels !! j = Some label /\
        length label = 1 `max` length ids /\
        label !! 0 = Some (pad_token_id T) /\
        forall i, S i < length ids -> label !! S i = ids !! i.
Proof.
  exists (map (shift_right T) (tokenized_target T summary)).
  split; [apply features_of_labels |].
  split; [apply length_map |].
  intros j ids Hj. exists (shift_right T ids).
  split.
  { change (map (shift_right T)) with (fmap (M:=list) (shift_right T)).
    rewrite list_lookup_fmap, Hj. reflexivity. }
  split; [rewrite shift_right_length; lia |].
  split; [reflexivity |].
  intros i Hi. apply shift_right_lookup_S, Hi.
Qed.

(** X4.  For a batch with a source column and a summary column, both
    functions return one label sequence per tokenized target; it starts with
    the padding id, position [i + 1] holds the target's token [i] for every
    target token but the last, and it has the length of the target, or
    length 1 when the tokenized target is empty. *)
Theorem convert_examples_to_features_alignment (T : tokenizer)
    (b : gmap string (list string)) (texts summary : list string) :
  b !! "summary" = Some summary ->
  (b !! "dialogue" = Some texts ->
   exists feats labels,
     Trainer.convert_examples_to_features T b = Returns feats /\
     feats !! "labels" = Some labels /\
     length labels = length (tokenized_target T summary) /\
     forall j ids,
       tokenized_target T summary !! j = Some ids ->
       exists label,
         labels !! j = Some label /\
         length label = 1 `max` length ids /\
         label !! 0 = Some (pad_token_id T) /\
         forall i, S i < length ids -> label !! S i = ids !! i) /\
  (b !! "utterance" = Some texts ->
   exists feats labels,
     Empathetic.convert_examples_to_features T b = Returns feats /\
     feats !! "labels" = Some labels /\
     length labels = length (tokenized_target T summary) /\
     forall j ids,
       tokenized_target T summary !! j = Some ids ->
       exists label,
         labels !! j = Some label /\
         length label = 1 `max` length ids /\
         label !! 0 = Some (pad_token_id T) /\
         forall i, S i < length ids -> label !! S i = ids !! i).
Proof.
  intros Hs.
  destruct (features_of_labels_aligned T texts summary) as (labels & Hl & Hlen & Hal).
  split; intros Ht; exists (features_of T texts summary), labels.
  - split; [apply trainer_convert_eq; assumption |]. repeat split; assumption.
  - split; [apply empathetic_convert_eq; assumption |]. repeat split; assumption.
Qed.

Lemma convert_examples_to_features_alignment_witness :
  exists feats labels,
    Trainer.convert_examples_to_features char_tokenizer (sample_batch "dialogue")
    = Returns feats /\
    feats !! "labels" = Some labels /\
    length labels = 2.
Proof.
  destruct (convert_examples_to_features_alignment char_tokenizer
              (sample_batch "dialogue") ["hi there"; "yo"] ["ok"; ""] eq_refl)
    as [Htrainer _].
  destruct (Htrainer eq_refl) as (feats & labels & Heq & Hl & Hlen & _).
  exists feats, labels. repeat split; assumption.
Defined.

(** ** The dictionary of scores and the callback's keyword arguments *)

Lemma rouge_dict_of_present {F : Type} (score : gmap string (aggregate_score F))
    (names : list string) :
  (forall rn, rn ∈ names -> is_Some (score !! rn)) ->
  exists rouge_dict,
    rouge_dict_of score names = Returns rouge_dict /\
    rouge_dict.*1 = names /\
    Forall (fun entry => exists s, score !! entry.1 = Some s /\ entry.2 = fmeasure (mid s))
      rouge_dict.
Proof.
  induction names as [|rn names IH]; intros Hall.
  - exists []. repeat split. constructor.
  - destruct (Hall rn) as [s Hs]; [left |].
    destruct IH as (rest & Heq & Hfst & Hvals);
      [intros x Hx; apply Hall; right; exact Hx |].
    exists ((rn, fmeasure (mid s)) :: rest).
    split; [| split].
    + cbn [rouge_dict_of]. rewrite (getitem_Some _ _ _ Hs), bind_Returns, Heq. reflexivity.
    + rewrite <- Hfst. reflexivity.
    + constructor; [exists s; split; [exact Hs | reflexivity] | exact Hvals].
Qed.

Lemma rouge_dict_of_missing {F : Type} (score : gmap string (aggregate_score F))
    (pre : list string) (rn : string) (post : list string) :
  (forall x, x ∈ pre -> is_Some (score !! x)) ->
  score !! rn = None ->
  rouge_dict_of score (pre ++ rn :: post) = Raises (KeyError rn).
Proof.
  induction pre as [|x pre IH]; intros Hpre Hrn.
  - cbn [app rouge_dict_of]. rewrite (getitem_None _ _ Hrn). reflexivity.
  - destruct (Hpre x) as [s Hs]; [left |].
    cbn [app rouge_dict_of]. rewrite (getitem_Some _ _ _ Hs), bind_Returns.
    rewrite IH; [reflexivity | intros y Hy; apply Hpre; right; exact Hy | exact Hrn].
Qed.

(** X5.  The dictionary of scores built from the names of the ROUGE
    variants: when the computed score has every name, it pairs the names, in
    their order, with the F-measure of the middle aggregate; when a name is
    missing, the key error of the first missing name is raised. *)
Theorem rouge_dict_of_outcome {F : Type} (score : gmap string (aggregate_score F))
    (names : list string) :
  ((forall rn, rn ∈ names -> is_Some (score !! rn)) ->
   exists rouge_dict,
     rouge_dict_of score names = Returns rouge_dict /\
     rouge_dict.*1 = names /\
     Forall (fun entry => exists s, score !! entry.1 = Some s /\ entry.2 = fmeasure (mid s))
       rouge_dict) /\
  (forall pre rn post,
     names = pre ++ rn :: post ->
     (forall x, x ∈ pre -> is_Some (score !! x)) ->
     score !! rn = None ->
     rouge_dict_of score names = Raises (KeyError rn)).
Proof.
  split.
  - apply rouge_dict_of_present.
  - intros pre rn post -> Hpre Hrn. apply rouge_dict_of_missing; assumption.
Qed.

Lemma rouge_dict_of_outcome_witness :
  rouge_dict_of (compute stub_framework 5) Trainer.rouge_names
  = Returns [("rouge1", 5); ("rouge2", 5); ("rougeL", 5); ("rougeLsum", 5)] /\
  rouge_dict_of (delete "rouge2" (compute stub_framework 5)) Trainer.rouge_names
  = Raises (KeyError "rouge2").
Proof.
  split.
  - reflexivity.
  - apply (rouge_dict_of_outcome (delete "rouge2" (compute stub_framework 5))
             Trainer.rouge_names) with (pre := ["rouge1"]) (post := ["rougeL"; "rougeLsum"]).
    + reflexivity.
    + intros x Hx. apply list_elem_of_singleton in Hx as ->. eexists. reflexivity.
    + reflexivity.
Defined.

(** X6.  Called without a ['model'] among its keyword arguments,
    [on_evaluate] raises the key error of ['model'] before anything else
    happens: no generation call is issued, the metric is not fed, nothing is
    logged. *)
Theorem on_evaluate_without_model {W O M F : Type} (fw : framework W M F)
    (eval_dataset : list example) (kwargs : gmap string object) (w : world W O M F) :
  kwargs !! "model" = None ->
  Trainer.on_evaluate fw eval_dataset kwargs w = (Raises (KeyError "model"), w).
Proof.
  intros Hkw. unfold Trainer.on_evaluate. rewrite run_bind_eq.
  unfold lift. rewrite (getitem_None _ _ Hkw). reflexivity.
Qed.

Lemma on_evaluate_without_model_witness :
  Trainer.on_evaluate stub_framework (stub_dataset 9) (<["optimizer" := the_optimizer]> ∅)
    stub_world
  = (Raises (KeyError "model"), stub_world).
Proof.
  apply (on_evaluate_without_model stub_framework (stub_dataset 9)
           (<["optimizer" := the_optimizer]> ∅) stub_world).
  reflexivity.
Defined.

(** ** The named splits all read the hub's ['train'] collection *)





(** ** Which calls end a script *)
















(** ** The summarization block *)

(** X10.  The summarization block at the end of both scripts always
    returns.  When the pipeline does not load, the pipeline is not run and
    one error record is logged; when it loads and its run raises, one error
    record is logged; the six records with the sample, the reference and the
    model summary are logged only when both calls return. *)
Theorem summarize_with_finetuned_outcomes (failing : gmap nat exn) (s : list event) :
  Trainer.summarize_with_finetuned failing s
  = (Returns tt,
     s ++ match failing !! 189, failing !! 190 with
          | Some e, _ =>
              [Call 189 "pipeline"; LogError "Error during summarization: {e}" e]
          | None, Some e =>
              [Call 189 "pipeline"; Call 190 "pipe";
               LogError "Error during summarization: {e}" e]
          | None, None =>
              [Call 189 "pipeline"; Call 190 "pipe";
               LogInfo "Dialogue:"; LogInfo "{sample_text}";
               LogInfo "\nReference Summary:"; LogInfo "{reference}";
               LogInfo "\nModel Summary:"; LogInfo "{model_summary}"]
          end) /\
  Empathetic.summarize_with_finetuned failing s
  = (Returns tt,
     s ++ match failing !! 179, failing !! 180 with
          | Some e, _ =>
              [Call 179 "pipeline"; LogError "Error during summarization: {e}" e]
          | None, Some e =>
              [Call 179 "pipeline"; Call 180 "pipe";
               LogError "Error during summarization: {e}" e]
          | None, None =>
              [Call 179 "pipeline"; Call 180 "pipe";
               LogInfo "Utterance:"; LogInfo "{sample_text}";
               LogInfo "\nReference Summary:"; LogInfo "{reference}";
               LogInfo "\nModel Summary:"; LogInfo "{model_summary}"]
          end).
Proof.
  split.
  - unfold Trainer.summarize_with_finetuned. cbv zeta.
    rewrite try_except_eq, !run_bind_eq. unfold call, logging_info, logging_error.
    destruct (failing !! 189); [| destruct (failing !! 190)];
      simpl; rewrite <- !app_assoc; reflexivity.
  - unfold Empathetic.summarize_with_finetuned. cbv zeta.
    rewrite try_except_eq, !run_bind_eq. unfold call, logging_info, logging_error.
    destruct (failing !! 179); [| destruct (failing !! 180)];
      simpl; rewrite <- !app_assoc; reflexivity.
Qed.

(** ** The replacement in the baseline summary *)

Lemma replace_space_dot_step (c d : ascii) (rest : string) :
  replace_space_dot (String c (String d rest))
  = if Ascii.eqb c " " && Ascii.eqb d "."
    then String "." (String (Ascii.ascii_of_nat 10) (replace_space_dot rest))
    else String c (replace_space_dot (String d rest)).
Proof. reflexivity. Qed.

Lemma replace_space_dot_length_two (text : string) :
  String.length (replace_space_dot text) = String.length text /\
  forall c, String.length (replace_space_dot (String c text)) = S (String.length text).
Proof.
  induction text as [|d rest' [IH IHc]].
  - split; [reflexivity | intros c; reflexivity].
  - split; [apply IHc |].
    intros c. rewrite replace_space_dot_step.
    destruct (Ascii.eqb c " " && Ascii.eqb d ".").
    + cbn [String.length]. rewrite IH. reflexivity.
    + cbn [String.length]. rewrite IHc. reflexivity.
Qed.

(** X11.  The replacement of [' .'] by a full stop and a line feed keeps the
    length of the text. *)
Theorem replace_space_dot_length (text : string) :
  String.length (replace_space_dot text) = String.length text.
Proof. apply replace_space_dot_length_two. Qed.

Lemma space_dot_at_S (c : ascii) (text : string) (i : nat) :
  space_dot_at (String c text) (S i) <-> space_dot_at text i.
Proof. reflexivity. Qed.

Lemma replace_space_dot_unchanged_two (text : string) :
  ((forall i, ~ space_dot_at text i) -> replace_space_dot text = text) /\
  forall c, (forall i, ~ space_dot_at (String c text) i) ->
            replace_space_dot (String c text) = String c text.
Proof.
  induction text as [|d rest' [IH IHc]].
  - split; [reflexivity | intros c _; reflexivity].
  - split; [apply IHc |].
    intros c Hno. rewrite replace_space_dot_step.
    destruct (Ascii.eqb_spec c " ") as [->|Hc]; cbn [andb].
    + destruct (Ascii.eqb_spec d ".") as [->|Hd].
      * exfalso. apply (Hno 0). split; reflexivity.
      * f_equal. apply IHc. intros i Hi. apply (Hno (S i)), space_dot_at_S, Hi.
    + f_equal. apply IHc. intros i Hi. apply (Hno (S i)), space_dot_at_S, Hi.
Qed.

(** X12.  A text in which no space is followed by a full stop is left as it
    is by the replacement. *)
Theorem replace_space_dot_unchanged (text : string) :
  (forall i, ~ space_dot_at text i) -> replace_space_dot text = text.
Proof. apply replace_space_dot_unchanged_two. Qed.

Lemma replace_space_dot_unchanged_witness :
  replace_space_dot "Amy: ok." = "Amy: ok.".
Proof.
  apply (replace_space_dot_unchanged "Amy: ok.").
  intros i [H1 H2].
  do 9 (destruct i as [|i]; [simpl in *; discriminate |]).
  simpl in *; discriminate.
Defined.

Example replace_space_dot_sample :
  replace_space_dot "Amy is late . Bob waits ."
  = String.append "Amy is late."
      (String (Ascii.ascii_of_nat 10)
         (String.append " Bob waits." (String (Ascii.ascii_of_nat 10) EmptyString))).
Proof. reflexivity. Qed.

(** ** Nothing runs after the call that ends a script *)














(** A failure of the ROUGE computation after training in
    [empathetic_summaries.py] ends the script before any save is tried. *)
Example empathetic_no_save_after_failed_rouge :
  last (Empathetic.main {[148 := Exception "out of memory"]} []).2
  = Some (Call 148 "calculate_metric_on_test_ds").
Proof. vm_compute. reflexivity. Qed.
